(** * fixtool agent: control-channel framing and entity tables

    A shallow embedding of [agent/fixtool-agent.py]: the length-prefixed frame
    codec of [ControlSession], the endpoint objects ([Client], [Server],
    [ServerSession]) and the request handlers of [FixToolAgent], followed by
    the properties of the design document checked against them.

    Conventions.
    - A Python method is a computation in a state-and-exception monad.  An
      exception leaves every mutation made before it in place, as in Python.
    - A socket object is identified by a number; the kernel and the asyncio
      reactor are the record [World].
    - [ServerSession] objects are shared between a server's queues and the
      agent's session table, so they live in an object store and the tables
      hold references.
    - [print] and [logging.log] calls, the event loop itself
      ([FixToolAgent.run], [stop]) and [main] are not modelled: the model
      has the callbacks the loop runs, one call at a time. *)

From Stdlib Require Import ZArith Lia.
From Stdlib.Strings Require Import Byte Ascii.
From stdpp Require Import base option list gmap strings pretty.

Local Open Scope Z_scope.

(** ** Exceptions and the monad of methods *)

Inductive exn :=
  | KeyError | TypeError | ValueError | OverflowError | OSError
  | IndexError | AttributeError | StructError | JSONDecodeError.

Inductive result (A : Type) :=
  | Ok (a : A)
  | Raise (e : exn).
Arguments Ok {A} a.
Arguments Raise {A} e.

Definition M (S A : Type) : Type := S -> S * result A.

Definition ret {S A} (a : A) : M S A := fun s => (s, Ok a).
Definition raise {S A} (e : exn) : M S A := fun s => (s, Raise e).
Definition bind {S A B} (m : M S A) (k : A -> M S B) : M S B :=
  fun s => match m s with
           | (s', Ok a) => k a s'
           | (s', Raise e) => (s', Raise e)
           end.
Definition get {S} : M S S := fun s => (s, Ok s).
Definition put {S} (s : S) : M S unit := fun _ => (s, Ok tt).
Definition modify {S} (f : S -> S) : M S unit := fun s => (f s, Ok tt).
Definition lift_result {S A} (r : result A) : M S A := fun s => (s, r).

(** Run a computation on a component of the state. *)
Definition zoom {S T A} (proj : S -> T) (upd : T -> S -> S) (m : M T A) : M S A :=
  fun s => let '(t', r) := m (proj s) in (upd t' s, r).

Declare Scope monad_scope.
Delimit Scope monad_scope with monad.
Notation "x <- m ;; k" := (bind m (fun x => k))
  (at level 100, m at next level, right associativity) : monad_scope.
Notation "m ;;; k" := (bind m (fun _ => k))
  (at level 100, right associativity) : monad_scope.
Local Open Scope monad_scope.

(** [for x in l: body(x)] *)
Fixpoint for_each {S A} (l : list A) (body : A -> M S unit) : M S unit :=
  match l with
  | [] => ret tt
  | x :: l' => body x ;;; for_each l' body
  end.

(** ** Bytes and [struct] *)

Abbreviation bytes := (list byte).

Definition byte_of_Z (z : Z) : byte :=
  default x00 (Byte.of_N (Z.to_N (z mod 256))).
Definition Z_of_byte (b : byte) : Z := Z.of_N (Byte.to_N b).

(** [struct.pack(">L", n)]: four bytes, most significant first;
    [struct.error] when [n] does not fit 32 bits. *)
Definition pack_L (n : Z) : result bytes :=
  if decide (0 <= n < 2 ^ 32)
  then Ok [byte_of_Z (n / 2 ^ 24); byte_of_Z (n / 2 ^ 16);
           byte_of_Z (n / 2 ^ 8); byte_of_Z n]
  else Raise StructError.

(** [struct.unpack(">L", b)[0]]: [struct.error] unless [b] has four bytes. *)
Definition unpack_L (b : bytes) : result Z :=
  match b with
  | [b3; b2; b1; b0] =>
      Ok (((Z_of_byte b3 * 256 + Z_of_byte b2) * 256 + Z_of_byte b1) * 256
          + Z_of_byte b0)
  | _ => Raise StructError
  end.

Definition len {A} (l : list A) : Z := Z.of_nat (length l).

(** The frame [ControlSession.send] hands to [sendall]: [header + payload]. *)
Definition frame (payload : bytes) : result bytes :=
  match pack_L (len payload) with
  | Ok header => Ok (header ++ payload)
  | Raise e => Raise e
  end.

(** ** Sockets and the reactor *)

Definition fd := nat.

(** The state of a socket object; a listening socket holds the port it was
    bound with. *)
Inductive sock_state :=
  | SockOpen | SockListening (port : Z) | SockConnected | SockClosed.

(** The bound method registered with [add_reader]. *)
Inductive callback :=
  | cb_agent_accept | cb_agent_readable
  | cb_client_readable | cb_server_acceptable | cb_session_readable.

(** ** JSON values, requests and responses *)

(** The field values of a decoded request that the handlers look at: JSON
    [null], integers and strings.  (Floats, booleans, arrays and objects are
    outside the model.)  A missing field read with [message.get] is [VNone]. *)
Inductive value :=
  | VNone
  | VInt (z : Z)
  | VStr (s : string).

Global Instance value_eq_dec : EqDecision value.
Proof. solve_decision. Defined.

Global Instance value_countable : Countable value.
Proof.
  refine (inj_countable'
    (fun v => match v with
              | VNone => inl tt | VInt z => inr (inl z) | VStr s => inr (inr s)
              end)
    (fun x => match x with
              | inl _ => VNone | inr (inl z) => VInt z | inr (inr s) => VStr s
              end) _).
  by intros [].
Defined.

(** [str(v)], as the [%s] conversion prints it. *)
Definition str (v : value) : string :=
  match v with
  | VNone => "None"
  | VInt z => pretty z
  | VStr s => s
  end.

(** [fmt % arg] for one argument that is not a tuple or a mapping: the first
    [%s] is replaced by [str(arg)]; a format without conversion raises
    [TypeError] (not all arguments converted). *)
Fixpoint percent (fmt : string) (arg : value) : result string :=
  match fmt with
  | EmptyString => Raise TypeError
  | String c rest =>
      match rest with
      | String c' rest' =>
          if Ascii.eqb c "%" && Ascii.eqb c' "s"
          then Ok (str arg +:+ rest')
          else match percent rest arg with
               | Ok s => Ok (String c s)
               | Raise e => Raise e
               end
      | EmptyString => Raise TypeError
      end
  end.

Arguments percent : simpl never.

(** A decoded request: the [dict] returned by [json.loads]. *)
Abbreviation Message := (gmap string value).

(** [message[key]] *)
Definition msg_index {S} (message : Message) (key : string) : M S value :=
  match message !! key with
  | Some v => ret v
  | None => raise KeyError
  end.

(** [message.get(key)] *)
Definition msg_get (message : Message) (key : string) : value :=
  default VNone (message !! key).

(** Modelled from the spec: the response classes of [fixtool.message], which
    is not among the sources.  One constructor per class, with the arguments
    of the constructor calls in the handlers: name, success, reason and the
    class-specific field of section 6 of the design document. *)
Inductive response :=
  | ClientCreatedMessage (name : value) (success : bool) (reason : string)
  | ClientDestroyedMessage (name : value) (success : bool) (reason : string)
  | ClientConnectedMessage (name : value) (success : bool) (reason : string)
  | ClientIsConnectedResponse (name : value) (success : bool) (reason : string)
      (is_connected : bool)
  | ServerCreatedMessage (name : value) (success : bool) (reason : string)
  | ServerDestroyedMessage (name : value) (success : bool) (reason : string)
  | ServerListenedMessage (name : value) (success : bool) (reason : string)
  | ServerUnlistenedMessage (name : value) (success : bool) (reason : string)
  | ServerPendingAcceptCountResponse (name : value) (success : bool)
      (reason : string) (count : nat)
  | ServerAcceptedMessage (name : value) (success : bool) (reason : string)
      (session_name : value)
  | ServerIsConnectedResponse (name : value) (success : bool) (reason : string)
      (is_connected : bool)
  | ServerDisconnectedMessage (name : value) (success : bool) (reason : string).

Definition success (r : response) : bool :=
  match r with
  | ClientCreatedMessage _ s _ | ClientDestroyedMessage _ s _
  | ClientConnectedMessage _ s _ | ClientIsConnectedResponse _ s _ _
  | ServerCreatedMessage _ s _ | ServerDestroyedMessage _ s _
  | ServerListenedMessage _ s _ | ServerUnlistenedMessage _ s _
  | ServerPendingAcceptCountResponse _ s _ _ | ServerAcceptedMessage _ s _ _
  | ServerIsConnectedResponse _ s _ _ | ServerDisconnectedMessage _ s _ => s
  end.

Definition reason (r : response) : string :=
  match r with
  | ClientCreatedMessage _ _ s | ClientDestroyedMessage _ _ s
  | ClientConnectedMessage _ _ s | ClientIsConnectedResponse _ _ s _
  | ServerCreatedMessage _ _ s | ServerDestroyedMessage _ _ s
  | ServerListenedMessage _ _ s | ServerUnlistenedMessage _ _ s
  | ServerPendingAcceptCountResponse _ _ s _ | ServerAcceptedMessage _ _ s _
  | ServerIsConnectedResponse _ _ s _ | ServerDisconnectedMessage _ _ s => s
  end.

(** ** The world: sockets, reactor registrations, bytes and responses sent *)

Record World := mkWorld {
  sockets : gmap fd sock_state;      (* every socket object created so far *)
  readers : gmap fd callback;        (* asyncio [add_reader] registrations *)
  next_fd : fd;                      (* identity of the next socket object *)
  accepting : list (string * Z);     (* remote endpoints that accept a connect *)
  wire : list (fd * bytes);          (* [sendall] calls, oldest first *)
  sent : list (fd * response)        (* responses handed to a control session *)
}.

Definition set_sockets (f : gmap fd sock_state -> gmap fd sock_state) (w : World) :=
  mkWorld (f (sockets w)) (readers w) (next_fd w) (accepting w) (wire w) (sent w).
Definition set_readers (f : gmap fd callback -> gmap fd callback) (w : World) :=
  mkWorld (sockets w) (f (readers w)) (next_fd w) (accepting w) (wire w) (sent w).

(** [socket.socket(AF_INET, SOCK_STREAM)] (also the socket [accept] returns,
    with [st := SockConnected]). *)
Definition new_socket (st : sock_state) : M World fd :=
  fun w => (mkWorld (<[next_fd w := st]> (sockets w)) (readers w)
                    (S (next_fd w)) (accepting w) (wire w) (sent w),
            Ok (next_fd w)).

(** [sock.connect((host, port))]: the address is checked first ([TypeError]
    for a host that is no string or a port that is no integer,
    [OverflowError] for a port outside 0-65535); then the socket must be
    open and unconnected and the peer must accept, else [OSError]. *)
Definition sock_connect (s : fd) (host port : value) : M World unit :=
  match host, port with
  | VStr h, VInt p =>
      if decide (0 <= p <= 65535) then
        w <- get ;;
        match sockets w !! s with
        | Some SockOpen =>
            if bool_decide ((h, p) ∈ accepting w)
            then modify (set_sockets <[s := SockConnected]>)
            else raise OSError
        | _ => raise OSError
        end
      else raise OverflowError
  | _, _ => raise TypeError
  end.

(** [sock.close()] *)
Definition sock_close (s : fd) : M World unit :=
  modify (set_sockets <[s := SockClosed]>).

(** [loop.add_reader(sock, cb)] *)
Definition add_reader (sock : fd) (cb : callback) : M World unit :=
  modify (set_readers <[sock := cb]>).

(** [loop.remove_reader(sock)]: [ValueError] (invalid file object) for
    [None]; otherwise the registration, if any, is dropped.  asyncio raises
    [ValueError] also for a socket object that has been closed, whose
    [fileno()] is -1; the world does not tell that case apart.  Each method
    of the program closes its socket right after this call; [Server] and
    [ServerSession] then drop the reference, [Client] keeps it and guards
    [destroy] by its connection flag. *)
Definition remove_reader (sock : option fd) : M World unit :=
  match sock with
  | None => raise ValueError
  | Some s => modify (set_readers (delete s))
  end.

(** [sock.sendall(data)] *)
Definition sendall (sock : fd) (data : bytes) : M World unit :=
  modify (fun w => mkWorld (sockets w) (readers w) (next_fd w) (accepting w)
                           (wire w ++ [(sock, data)]) (sent w)).

(** A response handed to the control session on [sock]. *)
Definition log_response (sock : fd) (r : response) (w : World) : World :=
  mkWorld (sockets w) (readers w) (next_fd w) (accepting w) (wire w)
          (sent w ++ [(sock, r)]).

(** A socket of the world is listening on port [p]. *)
Definition listens_on (p : Z) (w : World) : bool :=
  existsb (fun e => match e.2 with
                    | SockListening q => bool_decide (q = p)
                    | _ => false
                    end)
          (map_to_list (sockets w)).

(** [sock.bind(('', port))] then [sock.listen(5)]: the address is checked as
    in [sock_connect]; then [bind] raises [OSError] (address already in use)
    if a socket of the world is listening on the port, which [SO_REUSEADDR]
    does not lift.  Port 0 asks the system for a free port and never
    clashes; the world records the 0 of the call, the port the system chose
    being unknown to the program.  Ports held by other processes are outside
    the world. *)
Definition sock_bind_listen (s : fd) (port : value) : M World unit :=
  match port with
  | VInt p =>
      if decide (0 <= p <= 65535) then
        w <- get ;;
        if bool_decide (p <> 0) && listens_on p w
        then raise OSError
        else modify (set_sockets <[s := SockListening p]>)
      else raise OverflowError
  | _ => raise TypeError
  end.

(** Methods of an object run on the pair of the object and its environment
    (the world, or the object store around it). *)
Definition in_world {T A} (m : M World A) : M (T * World) A :=
  zoom snd (fun w s => (s.1, w)) m.
Definition self {T E} : M (T * E) T := fun s => (s, Ok s.1).
Definition set_self {T E} (f : T -> T) : M (T * E) unit :=
  modify (fun s => (f s.1, s.2)).

(** ** ControlSession *)

Module ControlSession.

Record t := mk {
  _socket : fd;
  _buffer : bytes
}.

Definition set_buffer (f : bytes -> bytes) (s : t) : t :=
  mk (_socket s) (f (_buffer s)).

(** [__init__] *)
Definition init (sock : fd) : t := mk sock [].

(** [append_bytes]: the result is [None] or the payload returned. *)
Definition append_bytes (buffer : bytes) : M t (option bytes) :=
  modify (set_buffer (fun b => b ++ buffer)) ;;;
  s <- get ;;
  if decide (len (_buffer s) <= 4) then ret None
  else
    payload_length <- lift_result (unpack_L (take 4 (_buffer s))) ;;
    if decide (len buffer < 4 + payload_length) then ret None
    else
      modify (set_buffer (drop 4)) ;;;
      s <- get ;;
      let payload := take (Z.to_nat payload_length) (_buffer s) in
      modify (set_buffer (drop (Z.to_nat payload_length))) ;;;
      ret (Some payload).
Arguments append_bytes : simpl never.

(** [send] *)
Definition send (payload : bytes) : M (t * World) unit :=
  let payload_length := len payload in
  header <- lift_result (pack_L payload_length) ;;
  s <- self ;;
  in_world (sendall (_socket s) (header ++ payload)).

(** [control.send(response.to_json().encode())]: the serialiser is not
    among the sources, so the response object itself is recorded; on the
    wire it is the frame of its JSON text. *)
Definition send_response (r : response) : M (t * World) unit :=
  s <- self ;;
  in_world (modify (log_response (_socket s) r)).

(** [close] *)
Definition close : M (t * World) unit :=
  s <- self ;;
  in_world (sock_close (_socket s)).

End ControlSession.

(** A decoded application message of the external codec ([simplefix]):
    a sequence of tag/value pairs.  The codec itself is not modelled: a read
    callback receives, next to the bytes read, the messages the parser
    yields once those bytes are appended. *)
Definition FixMessage : Type := list (Z * bytes).

(** ** Client *)

Module Client.

Record t := mk {
  _name : value;
  _comp_id : bytes;
  _auto_heartbeat : bool;
  _auto_sequence : bool;
  _raw : bool;
  _next_send_sequence : Z;
  _last_seen_sequence : Z;
  _host : value;
  _port : value;
  _is_connected : bool;
  _socket : fd;
  _recv_queue : list FixMessage
}.

Definition set_address (host port : value) (c : t) : t :=
  mk (_name c) (_comp_id c) (_auto_heartbeat c) (_auto_sequence c) (_raw c)
     (_next_send_sequence c) (_last_seen_sequence c) host port
     (_is_connected c) (_socket c) (_recv_queue c).
Definition set_is_connected (b : bool) (c : t) : t :=
  mk (_name c) (_comp_id c) (_auto_heartbeat c) (_auto_sequence c) (_raw c)
     (_next_send_sequence c) (_last_seen_sequence c) (_host c) (_port c)
     b (_socket c) (_recv_queue c).
Definition set_recv_queue (f : list FixMessage -> list FixMessage) (c : t) : t :=
  mk (_name c) (_comp_id c) (_auto_heartbeat c) (_auto_sequence c) (_raw c)
     (_next_send_sequence c) (_last_seen_sequence c) (_host c) (_port c)
     (_is_connected c) (_socket c) (f (_recv_queue c)).

(** [__init__]: the socket is created here.  The parser object is left out
    of the record. *)
Definition init (name : value) : M World t :=
  sock <- new_socket SockOpen ;;
  ret (mk name [] true true false 0 0 VNone VNone false sock []).

(** [disconnect] *)
Definition disconnect : M (t * World) unit :=
  c <- self ;;
  in_world (remove_reader (Some (_socket c))) ;;;
  in_world (sock_close (_socket c)) ;;;
  set_self (set_is_connected false).

(** [destroy] *)
Definition destroy : M (t * World) unit :=
  c <- self ;;
  if _is_connected c then disconnect else ret tt.

(** [connect] *)
Definition connect (host port : value) : M (t * World) unit :=
  set_self (set_address host port) ;;;
  c <- self ;;
  in_world (sock_connect (_socket c) (_host c) (_port c)) ;;;
  set_self (set_is_connected true) ;;;
  in_world (add_reader (_socket c) cb_client_readable).

(** [is_connected] *)
Definition is_connected : M (t * World) bool :=
  c <- self ;; ret (_is_connected c).

(** [readable]: [buf] is what [recv] returned, [decoded] what the parser
    yields after [append_buffer(buf)]. *)
Definition readable (buf : bytes) (decoded : list FixMessage) : M (t * World) unit :=
  if decide (len buf = 0) then disconnect
  else for_each decoded (fun message =>
         set_self (set_recv_queue (fun q => q ++ [message]))).

End Client.

(** ** ServerSession *)

Module ServerSession.

Record t := mk {
  _socket : option fd;
  _name : value;
  _is_connected : bool;
  _queue : list FixMessage
}.

Definition set_socket (s : option fd) (x : t) : t :=
  mk s (_name x) (_is_connected x) (_queue x).
Definition set_name_field (n : value) (x : t) : t :=
  mk (_socket x) n (_is_connected x) (_queue x).
Definition set_is_connected (b : bool) (x : t) : t :=
  mk (_socket x) (_name x) b (_queue x).
Definition set_queue (f : list FixMessage -> list FixMessage) (x : t) : t :=
  mk (_socket x) (_name x) (_is_connected x) (f (_queue x)).

(** [__init__]; the back-reference [_server], which is never read, and the
    parser object are left out of the record. *)
Definition init (sock : fd) : M World t :=
  add_reader sock cb_session_readable ;;;
  ret (mk (Some sock) VNone true []).

(** [disconnect] *)
Definition disconnect : M (t * World) unit :=
  x <- self ;;
  in_world (remove_reader (_socket x)) ;;;
  match _socket x with
  | Some s => in_world (sock_close s)
  | None => raise AttributeError
  end ;;;
  set_self (set_socket None) ;;;
  set_self (set_is_connected false).

(** [destroy] *)
Definition destroy : M (t * World) unit :=
  x <- self ;;
  (if _is_connected x then disconnect else ret tt) ;;;
  set_self (set_queue (fun _ => [])).

(** [set_name] *)
Definition set_name (name : value) : M (t * World) unit :=
  set_self (set_name_field name).

(** [readable], with [buf] and [decoded] as for [Client.readable]. *)
Definition readable (buf : bytes) (decoded : list FixMessage) : M (t * World) unit :=
  if decide (len buf = 0) then set_self (set_is_connected false)
  else for_each decoded (fun msg =>
         set_self (set_queue (fun q => q ++ [msg]))).

(** [is_connected] *)
Definition is_connected : M (t * World) bool :=
  x <- self ;; ret (_is_connected x).

(** [receive_queue_length] *)
Definition receive_queue_length (x : t) : nat := length (_queue x).

(** [get_message] *)
Definition get_message : M (t * World) (option FixMessage) :=
  x <- self ;;
  match _queue x with
  | [] => ret None
  | m :: q => set_self (set_queue (fun _ => q)) ;;; ret (Some m)
  end.

(** [send_message], with [buffer] the bytes [message.encode()] returns. *)
Definition send_message (buffer : bytes) : M (t * World) unit :=
  x <- self ;;
  match _socket x with
  | Some s => in_world (sendall s buffer)
  | None => raise AttributeError
  end.

Global Instance inhabited : Inhabited t := populate (mk None VNone false []).

End ServerSession.

(** ** The object store of ServerSession objects *)

Definition ref := nat.

Record Store := mkStore {
  world : World;
  session_objs : gmap ref ServerSession.t;
  next_ref : ref
}.

Definition on_world {A} (m : M World A) : M Store A :=
  zoom world (fun w h => mkStore w (session_objs h) (next_ref h)) m.

(** Call a method on the object behind a reference. *)
Definition on_session {A} (r : ref) (m : M (ServerSession.t * World) A) : M Store A :=
  zoom (fun h => (session_objs h !!! r, world h))
       (fun xw h => mkStore xw.2 (<[r := xw.1]> (session_objs h)) (next_ref h))
       m.

(** A newly constructed object gets a fresh reference. *)
Definition alloc_session (x : ServerSession.t) : M Store ref :=
  fun h => (mkStore (world h) (<[next_ref h := x]> (session_objs h)) (S (next_ref h)),
            Ok (next_ref h)).

Definition in_store {T A} (m : M Store A) : M (T * Store) A :=
  zoom snd (fun h s => (s.1, h)) m.

(** ** Server *)

Module Server.

Record t := mk {
  _auto_heartbeat : bool;
  _auto_sequence : bool;
  _raw : bool;
  _next_send_sequence : Z;
  _last_seen_sequence : Z;
  _pending_sessions : list ref;
  _accepted_sessions : gmap value ref;
  _socket : option fd
}.

Definition set_pending (f : list ref -> list ref) (s : t) : t :=
  mk (_auto_heartbeat s) (_auto_sequence s) (_raw s) (_next_send_sequence s)
     (_last_seen_sequence s) (f (_pending_sessions s)) (_accepted_sessions s)
     (_socket s).
Definition set_accepted (f : gmap value ref -> gmap value ref) (s : t) : t :=
  mk (_auto_heartbeat s) (_auto_sequence s) (_raw s) (_next_send_sequence s)
     (_last_seen_sequence s) (_pending_sessions s) (f (_accepted_sessions s))
     (_socket s).
Definition set_socket (o : option fd) (s : t) : t :=
  mk (_auto_heartbeat s) (_auto_sequence s) (_raw s) (_next_send_sequence s)
     (_last_seen_sequence s) (_pending_sessions s) (_accepted_sessions s) o.

(** [__init__] *)
Definition init : t := mk true true false 0 0 [] ∅ None.

(** [unlisten(port)] *)
Definition unlisten (port : value) : M (t * Store) unit :=
  s <- self ;;
  in_store (on_world (remove_reader (_socket s))) ;;;
  match _socket s with
  | Some sock => in_store (on_world (sock_close sock))
  | None => raise AttributeError
  end ;;;
  set_self (set_socket None).

(** [destroy].  The call [self.unlisten()] lacks the [port] argument of
    [unlisten] and raises [TypeError] before the method body runs.  The
    accepted sessions are visited in the order of the map's listing; the
    resulting state depends on the order only if a call raises. *)
Definition destroy : M (t * Store) unit :=
  s <- self ;;
  (match _socket s with
   | Some _ => raise TypeError
   | None => ret tt
   end) ;;;
  for_each (_pending_sessions s) (fun session =>
    in_store (on_session session ServerSession.destroy)) ;;;
  set_self (set_pending (fun _ => [])) ;;;
  s <- self ;;
  for_each (map_to_list (_accepted_sessions s)).*2 (fun session =>
    in_store (on_session session ServerSession.destroy)) ;;;
  set_self (set_accepted (fun _ => ∅)).
Arguments destroy : simpl never.

(** [is_raw] *)
Definition is_raw (s : t) : bool := _raw s.

(** [listen] *)
Definition listen (port : value) : M (t * Store) unit :=
  sock <- in_store (on_world (new_socket SockOpen)) ;;
  set_self (set_socket (Some sock)) ;;;
  in_store (on_world (sock_bind_listen sock port)) ;;;
  in_store (on_world (add_reader sock cb_server_acceptable)).

(** [acceptable]: the kernel hands out the socket of the new connection. *)
Definition acceptable : M (t * Store) unit :=
  s <- self ;;
  match _socket s with
  | None => raise AttributeError
  | Some _ =>
      sock <- in_store (on_world (new_socket SockConnected)) ;;
      x <- in_store (on_world (ServerSession.init sock)) ;;
      session <- in_store (alloc_session x) ;;
      set_self (set_pending (fun q => q ++ [session]))
  end.

(** [pending_client_count] *)
Definition pending_client_count (s : t) : nat := length (_pending_sessions s).

(** [accept_client_session] *)
Definition accept_client_session (name : value) : M (t * Store) (option ref) :=
  s <- self ;;
  if decide (pending_client_count s < 1)%nat then ret None
  else
    match _pending_sessions s with
    | [] => raise IndexError
    | client :: rest =>
        set_self (set_pending (fun _ => rest)) ;;;
        in_store (on_session client (ServerSession.set_name name)) ;;;
        set_self (set_accepted <[name := client]>) ;;;
        ret (Some client)
    end.

End Server.

(** ** FixToolAgent *)

(** [a < b] and [a > b] on a JSON value and an integer, as Python 3 orders
    them: [TypeError] unless the value is an integer.  ([None] never reaches
    a comparison in the handlers.) *)
Definition py_lt {S} (a : value) (b : Z) : M S bool :=
  match a with
  | VInt z => ret (bool_decide (z < b))
  | _ => raise TypeError
  end.
Definition py_gt {S} (a : value) (b : Z) : M S bool :=
  match a with
  | VInt z => ret (bool_decide (z > b))
  | _ => raise TypeError
  end.

Module FixToolAgent.

Record t := mk {
  _port : Z;
  _socket : fd;
  _control_sessions : gmap fd ControlSession.t;
  _clients : gmap value Client.t;
  _servers : gmap value Server.t;
  _server_sessions : gmap value (option ref)
}.

Definition set_control_sessions
    (f : gmap fd ControlSession.t -> gmap fd ControlSession.t) (a : t) : t :=
  mk (_port a) (_socket a) (f (_control_sessions a)) (_clients a) (_servers a)
     (_server_sessions a).
Definition set_clients (f : gmap value Client.t -> gmap value Client.t) (a : t) : t :=
  mk (_port a) (_socket a) (_control_sessions a) (f (_clients a)) (_servers a)
     (_server_sessions a).
Definition set_servers (f : gmap value Server.t -> gmap value Server.t) (a : t) : t :=
  mk (_port a) (_socket a) (_control_sessions a) (_clients a) (f (_servers a))
     (_server_sessions a).
Definition set_server_sessions
    (f : gmap value (option ref) -> gmap value (option ref)) (a : t) : t :=
  mk (_port a) (_socket a) (_control_sessions a) (_clients a) (_servers a)
     (f (_server_sessions a)).

(** The agent together with everything it can reach. *)
Abbreviation State := (t * Store)%type.

(** Call a method on an object held by value in a table and store the
    object back under its key: the table entry and the object are one. *)
Definition on_client {A} (name : value) (client : Client.t)
    (m : M (Client.t * World) A) : M State A :=
  fun s =>
    let '((c', w'), r) := m (client, world s.2) in
    ((set_clients <[name := c']> s.1,
      mkStore w' (session_objs s.2) (next_ref s.2)), r).

Definition on_server {A} (name : value) (server : Server.t)
    (m : M (Server.t * Store) A) : M State A :=
  fun s =>
    let '((v', h'), r) := m (server, s.2) in
    ((set_servers <[name := v']> s.1, h'), r).

(** [control.send(response.to_json().encode())] *)
Definition reply (control : ControlSession.t) (r : response) : M State unit :=
  in_store (on_world (fun w =>
    let '((_, w'), res) := ControlSession.send_response r (control, w) in
    (w', res))).
Arguments reply : simpl never.

(** [__init__] *)
Definition init : M World t :=
  sock <- new_socket SockOpen ;;
  sock_bind_listen sock (VInt 11011) ;;;
  add_reader sock cb_agent_accept ;;;
  ret (mk 11011 sock ∅ ∅ ∅ ∅).

(** [accept] *)
Definition accept : M State unit :=
  sock <- in_store (on_world (new_socket SockConnected)) ;;
  in_store (on_world (add_reader sock cb_agent_readable)) ;;;
  set_self (set_control_sessions <[sock := ControlSession.init sock]>).

Definition handle_client_create (control : ControlSession.t) (message : Message)
    : M State unit :=
  let name := msg_get message "name" in
  a <- self ;;
  match _clients a !! name with
  | Some _ =>
      why <- lift_result (percent "Client %s already exists" name) ;;
      reply control (ClientCreatedMessage name false why)
  | None =>
      client <- in_store (on_world (Client.init name)) ;;
      set_self (set_clients <[name := client]>) ;;;
      reply control (ClientCreatedMessage name true "")
  end.

Definition handle_client_destroy (control : ControlSession.t) (message : Message)
    : M State unit :=
  let name := msg_get message "name" in
  a <- self ;;
  match _clients a !! name with
  | None =>
      why <- lift_result (percent "No such client '$s'" name) ;;
      reply control (ClientDestroyedMessage name false why)
  | Some client =>
      on_client name client Client.destroy ;;;
      set_self (set_clients (delete name)) ;;;
      reply control (ClientDestroyedMessage name true "")
  end.

Definition handle_client_connect (control : ControlSession.t) (message : Message)
    : M State unit :=
  let name := msg_get message "name" in
  a <- self ;;
  match _clients a !! name with
  | None =>
      why <- lift_result (percent "No such client '$s'" name) ;;
      reply control (ClientConnectedMessage name false why)
  | Some client =>
      on_client name client
        (Client.connect (msg_get message "host") (msg_get message "port")) ;;;
      reply control (ClientConnectedMessage name true "")
  end.

Definition handle_client_is_connected_request (control : ControlSession.t)
    (message : Message) : M State unit :=
  let name := msg_get message "name" in
  a <- self ;;
  match _clients a !! name with
  | None =>
      why <- lift_result (percent "No such client %s" name) ;;
      reply control (ClientIsConnectedResponse name false why false)
  | Some client =>
      is_connected <- on_client name client Client.is_connected ;;
      reply control (ClientIsConnectedResponse name true "" is_connected)
  end.

Definition handle_server_create (client : ControlSession.t) (message : Message)
    : M State unit :=
  let name := msg_get message "name" in
  a <- self ;;
  match _servers a !! name with
  | Some _ =>
      why <- lift_result (percent "Server '%s' already exists" name) ;;
      reply client (ServerCreatedMessage name false why)
  | None =>
      let server := Server.init in
      set_self (set_servers <[name := server]>) ;;;
      reply client (ServerCreatedMessage name true "")
  end.

Definition handle_server_destroy (control : ControlSession.t) (message : Message)
    : M State unit :=
  let name := msg_get message "name" in
  a <- self ;;
  match _servers a !! name with
  | None =>
      why <- lift_result (percent "No such server '$s'" name) ;;
      reply control (ServerDestroyedMessage name false why)
  | Some server =>
      on_server name server Server.destroy ;;;
      set_self (set_servers (delete name)) ;;;
      reply control (ServerDestroyedMessage name true "")
  end.

(** [port is None or port < 0 or port > 65535] *)
Definition bad_port (port : value) : M State bool :=
  if decide (port = VNone) then ret true
  else
    below <- py_lt port 0 ;;
    if below : bool then ret true else py_gt port 65535.

Definition handle_server_listen (client : ControlSession.t) (message : Message)
    : M State unit :=
  name <- msg_index message "name" ;;
  a <- self ;;
  match _servers a !! name with
  | None =>
      why <- lift_result (percent "No such server '%s'" name) ;;
      reply client (ServerListenedMessage name false why)
  | Some server =>
      let port := msg_get message "port" in
      bad <- bad_port port ;;
      if bad : bool then
        reply client (ServerListenedMessage name false "Bad or missing port")
      else
        on_server name server (Server.listen port) ;;;
        reply client (ServerListenedMessage name true "")
  end.

Definition handle_server_unlisten (client : ControlSession.t) (message : Message)
    : M State unit :=
  name <- msg_index message "name" ;;
  a <- self ;;
  match _servers a !! name with
  | None =>
      why <- lift_result (percent "No such server '%s'" name) ;;
      reply client (ServerUnlistenedMessage name false why)
  | Some server =>
      let port := msg_get message "port" in
      bad <- bad_port port ;;
      if bad : bool then
        reply client (ServerUnlistenedMessage name false "Bad or missing port")
      else
        on_server name server (Server.unlisten port) ;;;
        reply client (ServerUnlistenedMessage name true "")
  end.

Definition handle_server_pending_accept_request (control : ControlSession.t)
    (message : Message) : M State unit :=
  name <- msg_index message "name" ;;
  a <- self ;;
  match _servers a !! name with
  | None =>
      why <- lift_result (percent "No such server '%s'" name) ;;
      reply control (ServerPendingAcceptCountResponse name false why 0)
  | Some server =>
      let count := Server.pending_client_count server in
      reply control (ServerPendingAcceptCountResponse name true "" count)
  end.

Definition handle_server_accept (control : ControlSession.t) (message : Message)
    : M State unit :=
  name <- msg_index message "name" ;;
  a <- self ;;
  match _servers a !! name with
  | None =>
      why <- lift_result (percent "No such server '%s'" name) ;;
      reply control (ServerAcceptedMessage name false why (VStr ""))
  | Some server =>
      let session_name := msg_get message "session_name" in
      session <- on_server name server (Server.accept_client_session session_name) ;;
      set_self (set_server_sessions <[session_name := session]>) ;;;
      reply control (ServerAcceptedMessage name true "" session_name)
  end.

(** [self._server_sessions.get(name)]: [None] for a missing key and for a
    key bound to [None]. *)
Definition get_server_session (a : t) (name : value) : option ref :=
  mjoin (_server_sessions a !! name).

Definition handle_server_is_connected_request (control : ControlSession.t)
    (message : Message) : M State unit :=
  let name := msg_get message "name" in
  a <- self ;;
  match get_server_session a name with
  | None =>
      why <- lift_result (percent "No such session %s" name) ;;
      reply control (ServerIsConnectedResponse name false why false)
  | Some server_session =>
      is_connected <- in_store (on_session server_session ServerSession.is_connected) ;;
      reply control (ServerIsConnectedResponse name true "" is_connected)
  end.

Definition handle_server_disconnect (control : ControlSession.t) (message : Message)
    : M State unit :=
  let name := msg_get message "name" in
  a <- self ;;
  match get_server_session a name with
  | None =>
      why <- lift_result (percent "No such session %s" name) ;;
      reply control (ServerDisconnectedMessage name false why)
  | Some server_session =>
      in_store (on_session server_session ServerSession.disconnect) ;;;
      reply control (ServerDisconnectedMessage name true "")
  end.

(** [handle_request] *)
Definition handle_request (client : ControlSession.t) (message : Message)
    : M State unit :=
  message_type <- msg_index message "type" ;;
  if decide (message_type = VStr "client_create") then
    handle_client_create client message
  else if decide (message_type = VStr "client_connect") then
    handle_client_connect client message
  else if decide (message_type = VStr "client_is_connected_request") then
    handle_client_is_connected_request client message
  else if decide (message_type = VStr "client_destroy") then
    handle_client_destroy client message
  else if decide (message_type = VStr "server_create") then
    handle_server_create client message
  else if decide (message_type = VStr "server_destroy") then
    handle_server_destroy client message
  else if decide (message_type = VStr "server_listen") then
    handle_server_listen client message
  else if decide (message_type = VStr "server_unlisten") then
    handle_server_unlisten client message
  else if decide (message_type = VStr "server_pending_accept_request") then
    handle_server_pending_accept_request client message
  else if decide (message_type = VStr "server_accept") then
    handle_server_accept client message
  else if decide (message_type = VStr "server_is_connected_request") then
    handle_server_is_connected_request client message
  else if decide (message_type = VStr "server_disconnect") then
    handle_server_disconnect client message
  else ret tt.

Section Readable.

(** [json.loads] on a payload, read as a request: [Raise] for a payload
    that is no JSON text or no JSON object. *)
Variable json_loads : bytes -> result Message.

(** One payload through [json.loads] and [handle_request]. *)
Definition dispatch (control_session : ControlSession.t) (payload : bytes)
    : M State unit :=
  message <- lift_result (json_loads payload) ;;
  handle_request control_session message.

(** [readable]: [buf] is what [sock.recv(65536)] returned.  The loop body
    ends with [payload = None], so it runs at most once. *)
Definition readable (sock : fd) (buf : bytes) : M State unit :=
  a <- self ;;
  match _control_sessions a !! sock with
  | None => raise KeyError
  | Some control_session =>
      if decide (len buf = 0) then
        in_store (on_world (remove_reader (Some sock))) ;;;
        set_self (set_control_sessions (delete sock)) ;;;
        in_store (on_world (sock_close (ControlSession._socket control_session)))
      else
        let '(control_session, payload) :=
          ControlSession.append_bytes buf control_session in
        set_self (set_control_sessions <[sock := control_session]>) ;;;
        match payload with
        | Raise e => raise e
        | Ok None => ret tt
        | Ok (Some payload) => dispatch control_session payload
        end
  end.

End Readable.

End FixToolAgent.

(** * Vocabulary of the properties *)

(** ** Running a method *)

Definition exec {S A} (m : M S A) (s : S) : S := (m s).1.
Definition outcome {S A} (m : M S A) (s : S) : result A := (m s).2.

(** The responses sent so far, oldest first. *)
Definition responses (s : FixToolAgent.State) : list (fd * response) :=
  sent (world s.2).

(** The store after [control] was handed the response [r]. *)
Definition replied (control : ControlSession.t) (r : response) (h : Store) : Store :=
  mkStore (log_response (ControlSession._socket control) r (world h))
          (session_objs h) (next_ref h).

(** The world after [sendall(data)] on [sock]. *)
Definition written (sock : fd) (data : bytes) (w : World) : World :=
  mkWorld (sockets w) (readers w) (next_fd w) (accepting w)
          (wire w ++ [(sock, data)]) (sent w).

(** ** Chunks of a byte stream *)

(** Successive [append_bytes] calls on one session, with the result of each. *)
Fixpoint feed (chunks : list bytes) (s : ControlSession.t)
    : ControlSession.t * list (result (option bytes)) :=
  match chunks with
  | [] => (s, [])
  | chunk :: chunks' =>
      let '(s', r) := ControlSession.append_bytes chunk s in
      let '(s'', rs) := feed chunks' s' in
      (s'', r :: rs)
  end.

(** The payloads among the results. *)
Definition decoded (rs : list (result (option bytes))) : list bytes :=
  omap (fun r => match r with Ok (Some p) => Some p | _ => None end) rs.

(** The frames of the two-byte payloads [ab] and [cd]. *)
Definition frame_ab : bytes := [x00; x00; x00; x02; x61; x62].
Definition frame_cd : bytes := [x00; x00; x00; x02; x63; x64].

(** ** Agents to start from *)

(** Nothing created yet; one remote endpoint accepts connections. *)
Definition world0 : World := mkWorld ∅ ∅ 0%nat [("127.0.0.1"%string, 9000)] [] [].

(** The agent after [__init__]. *)
Definition booted : FixToolAgent.State :=
  let '(w, r) := FixToolAgent.init world0 in
  (match r with Ok a => a | Raise _ => FixToolAgent.mk 11011 0%nat ∅ ∅ ∅ ∅ end,
   mkStore w ∅ 0%nat).

(** The agent with one control connection accepted (socket 1). *)
Definition serving : FixToolAgent.State := exec FixToolAgent.accept booted.
Definition control1 : ControlSession.t := ControlSession.init 1%nat.

(** A request with its [type] and further fields. *)
Definition request (type : string) (fields : list (string * value)) : Message :=
  list_to_map (("type"%string, VStr type) :: fields).

(** Requests of control connection 1 handled one after the other. *)
Definition handle_all (requests : list Message) : M FixToolAgent.State unit :=
  for_each requests (FixToolAgent.handle_request control1).

(** The reactor runs the [acceptable] callback of the server [name]. *)
Definition connection_arrives (name : value) : M FixToolAgent.State unit :=
  a <- self ;;
  match FixToolAgent._servers a !! name with
  | Some server => FixToolAgent.on_server name server Server.acceptable
  | None => raise KeyError
  end.

(** The reactor runs the [readable] callback of a session. *)
Definition session_reads (session : ref) (buf : bytes) (decoded : list FixMessage)
    : M FixToolAgent.State unit :=
  in_store (on_session session (ServerSession.readable buf decoded)).

(** The agent with a client [A], created and never connected. *)
Definition with_client_A : FixToolAgent.State :=
  exec (handle_all [request "client_create" [("name"%string, VStr "A")]]) serving.

(** The agent with a server [S] that has no pending connection. *)
Definition with_server_S : FixToolAgent.State :=
  exec (handle_all [request "server_create" [("name"%string, VStr "S")]]) serving.

(** The agent with a server [S] that listens on port 9001 (socket 2) and has
    accepted one connection (session object 0 on socket 3) under the session
    name [X]. *)
Definition with_session_X : FixToolAgent.State :=
  exec (handle_all [request "server_create" [("name"%string, VStr "S")];
                    request "server_listen"
                      [("name"%string, VStr "S"); ("port"%string, VInt 9001)]] ;;;
        connection_arrives (VStr "S") ;;;
        handle_all [request "server_accept"
                      [("name"%string, VStr "S"); ("session_name"%string, VStr "X")]])
       serving.

(** The agent of [with_session_X] once server [S] has stopped listening. *)
Definition with_idle_server_S : FixToolAgent.State :=
  exec (handle_all [request "server_unlisten"
                      [("name"%string, VStr "S"); ("port"%string, VInt 9001)]])
       with_session_X.

(** ** Predicates *)

(** The session name carried by a [server_accept] response. *)
Definition accepted_session_name (r : response) : option value :=
  match r with
  | ServerAcceptedMessage _ _ _ session_name => Some session_name
  | _ => None
  end.

(** A port outside 0-65535 or no port at all. *)
Definition rejected_port (port : value) : Prop :=
  port = VNone \/ exists z, port = VInt z /\ ~ (0 <= z <= 65535).

(** [needle] occurs in [hay]. *)
Definition contains (needle hay : string) : Prop :=
  exists pre post, hay = pre +:+ needle +:+ post.

(** The client [Client(name)] returns when [sock] is the next socket. *)
Definition new_client (name : value) (sock : fd) : Client.t :=
  Client.mk name [] true true false 0 0 VNone VNone false sock [].

(** The store after [Client(name)] took the next socket. *)
Definition client_allocated (h : Store) : Store :=
  mkStore (mkWorld (<[next_fd (world h) := SockOpen]> (sockets (world h)))
                   (readers (world h)) (S (next_fd (world h)))
                   (accepting (world h)) (wire (world h)) (sent (world h)))
          (session_objs h) (next_ref h).


(** What [ServerSession.destroy] leaves behind. *)
Definition destroyed (x : ServerSession.t) : Prop :=
  ServerSession._is_connected x = false /\ ServerSession._queue x = [].

(** A connected session has a socket; then [disconnect] cannot raise. *)
Definition closable (x : ServerSession.t) : Prop :=
  ServerSession._is_connected x = true -> is_Some (ServerSession._socket x).

Definition all_closable (h : Store) : Prop :=
  forall r, closable (session_objs h !!! r).

(** ** Vocabulary of the further properties *)

(** The two outcomes of [append_bytes], with [B] the old buffer followed by
    the chunk. *)
Definition kept (cs : ControlSession.t) (chunk : bytes) : Prop :=
  let B := ControlSession._buffer cs ++ chunk in
  (len B <= 4 \/ exists L, unpack_L (take 4 B) = Ok L /\ len chunk < 4 + L) /\
  ControlSession.append_bytes chunk cs
    = (ControlSession.mk (ControlSession._socket cs) B, Ok None).

Definition released (cs : ControlSession.t) (chunk p rest : bytes) : Prop :=
  let B := ControlSession._buffer cs ++ chunk in
  ControlSession.append_bytes chunk cs
    = (ControlSession.mk (ControlSession._socket cs) rest, Ok (Some p)) /\
  exists h, B = h ++ p ++ rest /\ length h = 4%nat /\ unpack_L h = Ok (len p) /\
            4 + len p <= len chunk.

(** A stand-in for [json.loads] that accepts no payload. *)
Definition no_json (payload : bytes) : result Message := Raise JSONDecodeError.

(** The agent state after control socket [sock] reported a peer close. *)
Definition control_closed (sock : fd) (cs : ControlSession.t)
    (s : FixToolAgent.State) : FixToolAgent.State :=
  (FixToolAgent.set_control_sessions (delete sock) s.1,
   mkStore (set_sockets <[ControlSession._socket cs := SockClosed]>
              (set_readers (delete sock) (world s.2)))
           (session_objs s.2) (next_ref s.2)).

(** The request types [handle_request] passes on to a handler. *)
Definition dispatched_types : list string :=
  ["client_create"; "client_connect"; "client_is_connected_request";
   "client_destroy"; "server_create"; "server_destroy"; "server_listen";
   "server_unlisten"; "server_pending_accept_request"; "server_accept";
   "server_is_connected_request"; "server_disconnect"]%string.

(** The world after the socket [sock] of a client was connected. *)
Definition client_connected (sock : fd) (w : World) : World :=
  set_readers <[sock := cb_client_readable]>
    (set_sockets <[sock := SockConnected]> w).

(** No socket of the world listens on [port], nor on a port that the
    system chose (recorded as 0) and that could be [port]. *)
Definition port_free (port : Z) (w : World) : bool :=
  negb (listens_on port w) && negb (listens_on 0 w).

(** The store after a server took the next socket and failed to bind it:
    the socket is open, unbound and not registered. *)
Definition listening_failed (h : Store) : Store :=
  mkStore (mkWorld (<[next_fd (world h) := SockOpen]> (sockets (world h)))
                   (readers (world h)) (S (next_fd (world h)))
                   (accepting (world h)) (wire (world h)) (sent (world h)))
          (session_objs h) (next_ref h).

(** The store after a server took the next socket and listens on it, on
    [port]. *)
Definition listening_started (port : Z) (h : Store) : Store :=
  mkStore (mkWorld (<[next_fd (world h) := SockListening port]> (sockets (world h)))
                   (<[next_fd (world h) := cb_server_acceptable]> (readers (world h)))
                   (S (next_fd (world h))) (accepting (world h))
                   (wire (world h)) (sent (world h)))
          (session_objs h) (next_ref h).

(** The store after the listening socket [sock] was closed. *)
Definition listening_stopped (sock : fd) (h : Store) : Store :=
  mkStore (set_sockets <[sock := SockClosed]>
             (set_readers (delete sock) (world h)))
          (session_objs h) (next_ref h).


(** The session object [ServerSession(server, sock)] constructs. *)
Definition new_session (sock : fd) : ServerSession.t :=
  ServerSession.mk (Some sock) VNone true [].

(** The store after one connection was accepted by the kernel. *)
Definition arrived (h : Store) : Store :=
  mkStore (mkWorld (<[next_fd (world h) := SockConnected]> (sockets (world h)))
                   (<[next_fd (world h) := cb_session_readable]> (readers (world h)))
                   (S (next_fd (world h))) (accepting (world h))
                   (wire (world h)) (sent (world h)))
          (<[next_ref h := new_session (next_fd (world h))]> (session_objs h))
          (S (next_ref h)).

(** The store after session [r] was given the name [name]. *)
Definition session_named (r : ref) (name : value) (h : Store) : Store :=
  mkStore (world h)
    (<[r := ServerSession.set_name_field name (session_objs h !!! r)]>
       (session_objs h))
    (next_ref h).

(** The store after session [r], which was [x] on socket [sock], was
    disconnected. *)
Definition session_disconnected (r : ref) (x : ServerSession.t) (sock : fd)
    (h : Store) : Store :=
  mkStore (set_sockets <[sock := SockClosed]>
             (set_readers (delete sock) (world h)))
          (<[r := ServerSession.set_is_connected false
                    (ServerSession.set_socket None x)]> (session_objs h))
          (next_ref h).

(** [n] successive [get_message] calls, with what each returned. *)
Fixpoint get_messages (n : nat) : M (ServerSession.t * World) (list (option FixMessage)) :=
  match n with
  | O => ret []
  | S n' =>
      m <- ServerSession.get_message ;;
      ms <- get_messages n' ;;
      ret (m :: ms)
  end.

(** Every run of [m] relates the state before to the state after, whether
    [m] returns or raises. *)
Definition preserves {S A} (R : relation S) (m : M S A) : Prop :=
  forall s, R s (m s).1.

(** Every connected session keeps having a socket. *)
Definition closable_kept {T} : relation (T * Store) :=
  fun s s' => all_closable s.2 -> all_closable s'.2.

(** The agent's session table before and after are related by [Q]. *)
Definition table_rel (Q : relation (gmap value (option ref)))
    : relation FixToolAgent.State :=
  fun s s' => Q (FixToolAgent._server_sessions s.1)
                (FixToolAgent._server_sessions s'.1).

(** The table [m'] is [m] except perhaps at the key [k], where it has an
    entry if [m] has one. *)
Definition written_at (k : value) : relation (gmap value (option ref)) :=
  fun m m' =>
    (forall n, n <> k -> m' !! n = m !! n) /\
    (is_Some (m !! k) -> is_Some (m' !! k)).

(** The reactor runs the [readable] callback of the client [name]. *)
Definition client_reads (name : value) (buf : bytes) (decoded : list FixMessage)
    : M FixToolAgent.State unit :=
  a <- self ;;
  match FixToolAgent._clients a !! name with
  | Some client => FixToolAgent.on_client name client (Client.readable buf decoded)
  | None => raise KeyError
  end.

(** One callback run by the reactor, or one request handled. *)
Inductive callback_run : relation FixToolAgent.State :=
  | run_accept s :
      callback_run s (exec FixToolAgent.accept s)
  | run_readable json_loads sock buf s :
      callback_run s (exec (FixToolAgent.readable json_loads sock buf) s)
  | run_request control message s :
      callback_run s (exec (FixToolAgent.handle_request control message) s)
  | run_acceptable name s :
      callback_run s (exec (connection_arrives name) s)
  | run_session_readable session buf decoded s :
      callback_run s (exec (session_reads session buf decoded) s)
  | run_client_readable name buf decoded s :
      callback_run s (exec (client_reads name buf decoded) s).

(** The world after the socket [sock] of a client was deregistered and
    closed. *)
Definition client_closed (sock : fd) (w : World) : World :=
  set_sockets <[sock := SockClosed]> (set_readers (delete sock) w).




(** ** Tactics *)

(** Unfold the sequencing of a method and simplify. *)
Ltac run :=
  repeat (cbv beta delta
            [bind ret raise get put modify lift_result zoom self set_self
             in_world in_store on_world] iota; cbn).

(** The same for the sequencing alone, leaving calls folded. *)
Ltac step :=
  cbv beta delta [bind ret raise get modify self set_self] iota zeta;
  cbn [fst snd].

(** A closed conjunction of equations, each decided by evaluation. *)
Ltac evaluate :=
  intros; repeat match goal with |- _ /\ _ => split end; vm_compute; reflexivity.

(** Unfold the handlers down to the calls on objects. *)
Ltac open_handlers :=
  unfold FixToolAgent.handle_request, FixToolAgent.handle_client_create,
    FixToolAgent.handle_client_destroy, FixToolAgent.handle_client_connect,
    FixToolAgent.handle_client_is_connected_request,
    FixToolAgent.handle_server_create, FixToolAgent.handle_server_destroy,
    FixToolAgent.handle_server_listen, FixToolAgent.handle_server_unlisten,
    FixToolAgent.handle_server_pending_accept_request,
    FixToolAgent.handle_server_accept,
    FixToolAgent.handle_server_is_connected_request,
    FixToolAgent.handle_server_disconnect, FixToolAgent.bad_port,
    msg_index, py_lt, py_gt.

(** * Properties *)

(** ** The frame codec *)

Section Codec.

Lemma Z_of_byte_of_Z z : Z_of_byte (byte_of_Z z) = z mod 256.
Proof.
  unfold Z_of_byte, byte_of_Z.
  assert (0 <= z mod 256 < 256) as Hb by (apply Z.mod_pos_bound; lia).
  destruct (Byte.of_N (Z.to_N (z mod 256))) as [b|] eqn:E; simpl.
  - apply Byte.to_of_N in E. rewrite E. lia.
  - apply Byte.of_N_None_iff in E. lia.
Qed.

Lemma unpack_pack n header :
  pack_L n = Ok header -> unpack_L header = Ok n /\ length header = 4%nat.
Proof.
  unfold pack_L. destruct (decide _) as [Hn|]; [|discriminate].
  intros [= <-]. split; [|reflexivity].
  unfold unpack_L. rewrite !Z_of_byte_of_Z. f_equal.
  change (2 ^ 24) with (2 ^ 8 * (2 ^ 8 * 2 ^ 8)).
  change (2 ^ 16) with (2 ^ 8 * 2 ^ 8).
  rewrite <- !Z.div_div by lia.
  change (2 ^ 8) with 256.
  pose proof (Z.div_mod n 256 ltac:(lia)).
  pose proof (Z.div_mod (n / 256) 256 ltac:(lia)).
  pose proof (Z.div_mod (n / 256 / 256) 256 ltac:(lia)).
  assert (n / 256 / 256 / 256 < 256).
  { rewrite !Z.div_div by lia. apply Z.div_lt_upper_bound; lia. }
  assert (0 <= n / 256 / 256 / 256) by (rewrite !Z.div_div by lia; apply Z.div_pos; lia).
  rewrite (Z.mod_small (n / 256 / 256 / 256)) by lia.
  lia.
Qed.

Lemma pack_L_defined n : 0 <= n < 2 ^ 32 -> exists header, pack_L n = Ok header.
Proof. intros Hn. unfold pack_L. rewrite decide_True by done. eauto. Qed.

Lemma frame_inv payload f :
  frame payload = Ok f ->
  exists header, pack_L (len payload) = Ok header /\ f = header ++ payload.
Proof.
  unfold frame. destruct (pack_L _) as [header|] eqn:E; [|discriminate].
  intros [= <-]. eauto.
Qed.

Lemma frame_defined payload :
  len payload < 2 ^ 32 -> exists f, frame payload = Ok f.
Proof.
  intros Hn. destruct (pack_L_defined (len payload)) as [h Hh]; [unfold len in *; lia|].
  unfold frame. rewrite Hh. eauto.
Qed.

Lemma len_app {A} (l k : list A) : len (l ++ k) = len l + len k.
Proof. unfold len. rewrite length_app. lia. Qed.

Lemma len_frame payload f : frame payload = Ok f -> len f = 4 + len payload.
Proof.
  intros (h & Hh & ->)%frame_inv. apply unpack_pack in Hh as [_ Hl].
  rewrite len_app. unfold len at 1. rewrite Hl. lia.
Qed.

(** A chunk that starts with a whole frame of a non-empty payload, arriving
    on an empty buffer: the payload comes out and the rest stays. *)
Lemma append_bytes_whole sock payload f rest :
  frame payload = Ok f -> payload <> [] ->
  ControlSession.append_bytes (f ++ rest) (ControlSession.init sock)
  = (ControlSession.mk sock rest, Ok (Some payload)).
Proof.
  intros Hf Hne. pose proof (len_frame _ _ Hf) as Hlen.
  apply frame_inv in Hf as (h & Hh & ->).
  apply unpack_pack in Hh as [Hu Hl].
  assert (0 < len payload) by (destruct payload; [done | unfold len; simpl; lia]).
  unfold ControlSession.append_bytes, ControlSession.init, ControlSession.set_buffer. run.
  rewrite decide_False by (rewrite !len_app in *; unfold len in *; lia).
  rewrite <- app_assoc, take_app_length' by done. rewrite Hu. simpl.
  rewrite decide_False by (rewrite !len_app in *; unfold len in *; lia).
  simpl. rewrite drop_app_length' by done.
  unfold len. rewrite Nat2Z.id, take_app_length, drop_app_length. done.
Qed.

(** While the buffer is a proper prefix of one frame, a chunk is kept and
    nothing is returned. *)
Lemma append_bytes_partial sock payload f pre chunk post :
  frame payload = Ok f -> f = pre ++ chunk ++ post -> post <> [] ->
  ControlSession.append_bytes chunk (ControlSession.mk sock pre)
  = (ControlSession.mk sock (pre ++ chunk), Ok None).
Proof.
  intros Hf Hsplit Hpost.
  unfold ControlSession.append_bytes, ControlSession.set_buffer. run.
  destruct (decide _) as [|Hlong]; [done|].
  pose proof (len_frame _ _ Hf) as Hlen.
  apply frame_inv in Hf as (h & Hh & Hf).
  apply unpack_pack in Hh as [Hu Hl].
  assert (take 4 (pre ++ chunk) = h) as ->.
  { assert (take 4 (pre ++ chunk) = take 4 ((pre ++ chunk) ++ post)) as ->.
    { symmetry. apply take_app_le. unfold len in Hlong. lia. }
    rewrite <- app_assoc, <- Hsplit, Hf. by rewrite take_app_length'. }
  rewrite Hu. simpl.
  rewrite decide_True; [done|].
  assert (0 < len post) by (destruct post; [done | unfold len; simpl; lia]).
  rewrite Hsplit, !len_app in Hlen. unfold len in *. lia.
Qed.

(** The last chunk of a frame that came in pieces: the test compares the
    length of the chunk, not of the buffer, so nothing is returned. *)
Lemma append_bytes_last sock payload f pre chunk :
  frame payload = Ok f -> f = pre ++ chunk -> pre <> [] ->
  ControlSession.append_bytes chunk (ControlSession.mk sock pre)
  = (ControlSession.mk sock f, Ok None).
Proof.
  intros Hf Hsplit Hpre.
  unfold ControlSession.append_bytes, ControlSession.set_buffer. run. rewrite <- Hsplit.
  destruct (decide _) as [|Hlong]; [done|].
  pose proof (len_frame _ _ Hf) as Hlen.
  apply frame_inv in Hf as (h & Hh & Hf).
  apply unpack_pack in Hh as [Hu Hl].
  rewrite Hf at 1. rewrite take_app_length' by done. rewrite Hu. simpl.
  rewrite decide_True; [done|].
  assert (0 < len pre) by (destruct pre; [done | unfold len; simpl; lia]).
  rewrite Hsplit, !len_app in Hlen. unfold len in *. lia.
Qed.

(** What [send] writes is the frame of the payload. *)
Lemma send_frame (cs : ControlSession.t) (w : World) payload f :
  frame payload = Ok f ->
  ControlSession.send payload (cs, w)
  = ((cs, written (ControlSession._socket cs) f w), Ok tt).
Proof.
  intros (h & Hh & ->)%frame_inv. unfold ControlSession.send. run.
  by rewrite Hh.
Qed.

(** The frame of the empty payload is four bytes long and is not decoded
    on arrival. *)
Lemma append_bytes_empty_payload sock f :
  frame [] = Ok f ->
  ControlSession.append_bytes f (ControlSession.init sock)
  = (ControlSession.mk sock f, Ok None).
Proof.
  intros Hf. apply len_frame in Hf.
  unfold ControlSession.append_bytes, ControlSession.init, ControlSession.set_buffer. run.
  rewrite decide_True; [done|]. change (len []) with 0 in Hf. lia.
Qed.

End Codec.

(** ** Feeding a control session chunk by chunk *)

Section Reassembly.

Lemma concat_nonempty (chunks : list bytes) :
  chunks <> [] -> Forall (fun c => c <> []) chunks -> concat chunks <> [].
Proof.
  intros Hne Hall. destruct Hall as [|c cs Hc _]; [done|].
  simpl. destruct c; [done|]. discriminate.
Qed.

Lemma feed_cons chunk chunks s :
  feed (chunk :: chunks) s
  = (let '(s', r) := ControlSession.append_bytes chunk s in
     let '(s'', rs) := feed chunks s' in (s'', r :: rs)).
Proof. reflexivity. Qed.

(** One frame cut into pieces, the buffer holding what came before: every
    call returns [None] and the whole frame ends up in the buffer. *)
Lemma feed_pieces sock payload f chunks : forall pre,
  frame payload = Ok f -> f = pre ++ concat chunks ->
  Forall (fun c => c <> []) chunks ->
  pre <> [] \/ (2 <= length chunks)%nat ->
  feed chunks (ControlSession.mk sock pre)
  = (ControlSession.mk sock f, replicate (length chunks) (Ok None)).
Proof.
  induction chunks as [|c cs IH]; intros pre Hf Hsplit Hall Hmany.
  - simpl in *. rewrite app_nil_r in Hsplit. subst pre.
    destruct Hmany as [_|?]; [done | lia].
  - apply Forall_cons in Hall as [Hc Hall]. simpl in Hsplit.
    destruct cs as [|c' cs'].
    + simpl in Hsplit. rewrite app_nil_r in Hsplit.
      destruct Hmany as [Hpre|?]; [|simpl in *; lia].
      simpl. by rewrite (append_bytes_last sock payload f pre c).
    + assert (concat (c' :: cs') <> []) as Hpost by (by apply concat_nonempty).
      rewrite feed_cons.
      rewrite (append_bytes_partial sock payload f pre c (concat (c' :: cs')))
        by done.
      rewrite (IH (pre ++ c)); [done | done | by rewrite <- app_assoc | done |].
      left. destruct pre; [by destruct c | done].
Qed.

(** A frame that arrives in two or more non-empty pieces is never decoded. *)
Lemma frame_in_pieces_never_decoded sock payload f chunks :
  frame payload = Ok f -> f = concat chunks ->
  Forall (fun c => c <> []) chunks -> (2 <= length chunks)%nat ->
  feed chunks (ControlSession.init sock)
  = (ControlSession.mk sock f, replicate (length chunks) (Ok None))
  /\ decoded (feed chunks (ControlSession.init sock)).2 = [].
Proof.
  intros Hf Hsplit Hall Hmany. unfold ControlSession.init.
  rewrite (feed_pieces sock payload f chunks []) by auto.
  split; [done|]. simpl. generalize (length chunks) as n.
  induction n as [|n IH]; [done|]. simpl. apply IH.
Qed.

(** A non-empty payload that arrives whole is decoded, and the buffer is
    empty again. *)
Lemma roundtrip_nonempty sock payload :
  payload <> [] -> len payload < 2 ^ 32 ->
  exists f, frame payload = Ok f /\
    ControlSession.append_bytes f (ControlSession.init sock)
    = (ControlSession.init sock, Ok (Some payload)).
Proof.
  intros Hne Hlen. destruct (frame_defined payload Hlen) as [f Hf].
  exists f. split; [done|].
  rewrite <- (app_nil_r f) at 1. by apply append_bytes_whole.
Qed.

End Reassembly.

(** C1 (violated by the code).  The frame of the payload [ab], cut at each of
    its five inner byte boundaries and fed in two [append_bytes] calls to a
    new session: both calls return [None], so no payload at all is decoded;
    the buffer keeps all six bytes. *)
Theorem C1_split_frame_yields_no_payload :
  frame [x61; x62] = Ok frame_ab /\
  Forall (fun k =>
            feed [take k frame_ab; drop k frame_ab] (ControlSession.init 0%nat)
            = (ControlSession.mk 0%nat frame_ab, [Ok None; Ok None]))
         [1; 2; 3; 4; 5]%nat.
Proof. split; [reflexivity|]. repeat constructor. Qed.

(** C3 (violated by the code).  [send] frames the empty payload as four zero
    bytes; [append_bytes] on these returns [None] and keeps them in the
    buffer, so the empty payload does not come back. *)
Theorem C3_empty_payload_not_decoded :
  ControlSession.send [] (ControlSession.init 0%nat, world0)
  = ((ControlSession.init 0%nat, written 0%nat [x00; x00; x00; x00] world0), Ok tt) /\
  ControlSession.append_bytes [x00; x00; x00; x00] (ControlSession.init 0%nat)
  = (ControlSession.mk 0%nat [x00; x00; x00; x00], Ok None).
Proof. split; reflexivity. Qed.

(** ** Reading from a control connection *)

Section ControlRead.

Variable json_loads : bytes -> result Message.

(** Two frames in one read: the first payload is dispatched, the frame of
    the second is left in the buffer and nothing else happens. *)
Lemma readable_two_frames sock (s : FixToolAgent.State) cs p1 p2 f1 f2 :
  FixToolAgent._control_sessions s.1 !! sock = Some cs ->
  ControlSession._buffer cs = [] ->
  frame p1 = Ok f1 -> frame p2 = Ok f2 -> p1 <> [] ->
  let cs' := ControlSession.mk (ControlSession._socket cs) f2 in
  FixToolAgent.readable json_loads sock (f1 ++ f2) s
  = FixToolAgent.dispatch json_loads cs' p1
      (FixToolAgent.set_control_sessions <[sock := cs']> s.1, s.2).
Proof.
  intros Hcs Hbuf Hf1 Hf2 Hne cs'. destruct s as [a h]. simpl in *.
  unfold FixToolAgent.readable. run. rewrite Hcs.
  pose proof (len_frame _ _ Hf1). pose proof (len_frame _ _ Hf2).
  rewrite decide_False by (rewrite len_app; unfold len in *; lia).
  destruct cs as [k b]. simpl in Hbuf. subst b.
  change (ControlSession.mk k []) with (ControlSession.init k).
  rewrite (append_bytes_whole k p1 f1 f2) by done.
  reflexivity.
Qed.

(** A single frame in one read is dispatched and the buffer is empty. *)
Lemma readable_one_frame sock (s : FixToolAgent.State) cs p f :
  FixToolAgent._control_sessions s.1 !! sock = Some cs ->
  ControlSession._buffer cs = [] ->
  frame p = Ok f -> p <> [] ->
  FixToolAgent.readable json_loads sock f s
  = FixToolAgent.dispatch json_loads cs p
      (FixToolAgent.set_control_sessions <[sock := cs]> s.1, s.2).
Proof.
  intros Hcs Hbuf Hf Hne. destruct s as [a h]. simpl in *.
  unfold FixToolAgent.readable. run. rewrite Hcs.
  pose proof (len_frame _ _ Hf).
  rewrite decide_False by (unfold len in *; lia).
  destruct cs as [k b]. simpl in Hbuf. subst b.
  change (ControlSession.mk k []) with (ControlSession.init k).
  pose proof (append_bytes_whole k p f [] Hf Hne) as Hw.
  rewrite app_nil_r in Hw. rewrite Hw.
  reflexivity.
Qed.

End ControlRead.

(** C2 (violated by the code).  The frames of [ab] and [cd] arrive in one
    read on control connection 1: whatever [json.loads] does, the read is
    the dispatch of the payload [ab] alone; the frame of [cd] stays
    undecoded in the session buffer. *)
Theorem C2_second_frame_not_dispatched (json_loads : bytes -> result Message) :
  let parked := ControlSession.mk 1%nat frame_cd in
  FixToolAgent.readable json_loads 1%nat (frame_ab ++ frame_cd) serving
  = FixToolAgent.dispatch json_loads parked [x61; x62]
      (FixToolAgent.set_control_sessions <[1%nat := parked]> serving.1, serving.2).
Proof.
  apply (readable_two_frames json_loads 1%nat serving control1
           [x61; x62] [x63; x64] frame_ab frame_cd); done.
Qed.

(** ** Strings *)

Section Strings.

Lemma append_nil_r (x : string) : x +:+ "" = x.
Proof.
  induction x as [|c x IH]; [reflexivity|].
  change (String c x +:+ "") with (String c (x +:+ "")). by rewrite IH.
Qed.

Lemma append_assoc (x y z : string) : (x +:+ y) +:+ z = x +:+ (y +:+ z).
Proof.
  induction x as [|c x IH]; [reflexivity|].
  change ((String c x +:+ y) +:+ z) with (String c ((x +:+ y) +:+ z)).
  by rewrite IH.
Qed.

End Strings.

(** ** Handlers *)

Section Handlers.

Import FixToolAgent.

Implicit Types (s : State) (control : ControlSession.t) (message : Message).

Lemma reply_spec control r s :
  reply control r s = ((s.1, replied control r s.2), Ok tt).
Proof. by destruct s as [a [w o n]]. Qed.

Lemma responses_replied control r a h :
  responses (a, replied control r h)
  = responses (a, h) ++ [(ControlSession._socket control, r)].
Proof. done. Qed.

(** [server_accept] on a server without pending connection: the session
    name is bound to [None] and echoed in a success response. *)
Lemma handle_server_accept_none_pending control message s name server :
  message !! "name" = Some name ->
  _servers s.1 !! name = Some server ->
  Server._pending_sessions server = [] ->
  let session_name := msg_get message "session_name" in
  handle_server_accept control message s
  = ((set_server_sessions <[session_name := None]> s.1,
      replied control (ServerAcceptedMessage name true "" session_name) s.2),
     Ok tt).
Proof.
  intros Hname Hserver Hpending session_name. destruct s as [a h].
  unfold handle_server_accept, msg_index. rewrite Hname. run.
  simpl in Hserver. rewrite Hserver.
  unfold on_server, Server.accept_client_session, Server.pending_client_count.
  run. rewrite Hpending. simpl. rewrite reply_spec. simpl.
  destruct a as [p k cs cl sv ss]. unfold set_server_sessions, set_servers.
  simpl in *. by rewrite insert_id.
Qed.

Lemma percent_no_such_session name :
  percent "No such session %s" name = Ok ("No such session " +:+ str name).
Proof.
  change (percent "No such session %s" name)
    with (Ok (A := string) ("No such session " +:+ (str name +:+ ""))).
  by rewrite append_nil_r.
Qed.

(** A name that is missing from the session table, or bound to [None], is
    answered with a failure. *)
Lemma handle_server_is_connected_no_session control message s :
  let name := msg_get message "name" in
  get_server_session s.1 name = None ->
  handle_server_is_connected_request control message s
  = ((s.1, replied control
             (ServerIsConnectedResponse name false
                ("No such session " +:+ str name) false) s.2),
     Ok tt).
Proof.
  intros name Hnone. destruct s as [a h].
  unfold handle_server_is_connected_request. run.
  fold name. simpl in Hnone. rewrite Hnone, percent_no_such_session.
  simpl. by rewrite reply_spec.
Qed.

End Handlers.

(** C4, counterexample.  Server [S] exists and nothing is pending; the
    request [server_accept] for [S] with [session_name] [X] is answered
    with success and the session name [X]: no response with an empty (or
    null) session name is sent. *)
Lemma C4_counterexample :
  let message := request "server_accept"
                   [("name"%string, VStr "S"); ("session_name"%string, VStr "X")] in
  let s' := exec (FixToolAgent.handle_server_accept control1 message) with_server_S in
  FixToolAgent._servers with_server_S.1 !! VStr "S" = Some Server.init /\
  Server._pending_sessions Server.init = [] /\
  ~ exists r, last (responses s') = Some (1%nat, r) /\ success r = true /\
      (accepted_session_name r = Some (VStr "") \/ accepted_session_name r = Some VNone).
Proof.
  split; [reflexivity|]. split; [reflexivity|].
  intros (r & Hlast & _ & Hname).
  vm_compute in Hlast. injection Hlast as <-.
  destruct Hname as [Hname|Hname]; discriminate Hname.
Qed.

(** C4, as amended.  A [server_accept] request naming an existing server
    without pending connection is not an error: exactly one response is
    sent, with success, an empty reason and the session name of the
    request, which is empty only if the request's is. *)
Theorem C4_accept_none_pending_echoes_session_name
    (control : ControlSession.t) (message : Message) (s : FixToolAgent.State)
    (name : value) (server : Server.t) :
  message !! "name" = Some name ->
  FixToolAgent._servers s.1 !! name = Some server ->
  Server._pending_sessions server = [] ->
  let s' := exec (FixToolAgent.handle_server_accept control message) s in
  let r := ServerAcceptedMessage name true "" (msg_get message "session_name") in
  outcome (FixToolAgent.handle_server_accept control message) s = Ok tt /\
  responses s' = responses s ++ [(ControlSession._socket control, r)] /\
  success r = true /\ reason r = ""%string /\
  accepted_session_name r = Some (msg_get message "session_name").
Proof.
  intros Hname Hserver Hpending s' r. subst s'. unfold exec, outcome.
  rewrite (handle_server_accept_none_pending control message s name server)
    by done.
  destruct s as [a h]. done.
Qed.

Lemma C4_accept_none_pending_echoes_session_name_witness :
  let message := request "server_accept"
                   [("name"%string, VStr "S"); ("session_name"%string, VStr "X")] in
  responses (exec (FixToolAgent.handle_server_accept control1 message) with_server_S)
  = responses with_server_S
    ++ [(1%nat, ServerAcceptedMessage (VStr "S") true "" (VStr "X"))].
Proof.
  intros message.
  apply (C4_accept_none_pending_echoes_session_name control1 message
           with_server_S (VStr "S") Server.init); reflexivity.
Defined.

(** C9.  A [server_accept] request naming an existing server without pending
    connection still writes the agent's session table: the requested session
    name is bound to [None]; the response reports success and echoes that
    name; a following [server_is_connected_request] for the name is answered
    with a failure whose reason is [No such session] and the name. *)
Theorem C9_accept_none_pending_binds_null
    (control control' : ControlSession.t) (message message' : Message)
    (s : FixToolAgent.State) (name : value) (server : Server.t) :
  message !! "name" = Some name ->
  FixToolAgent._servers s.1 !! name = Some server ->
  Server._pending_sessions server = [] ->
  let session_name := msg_get message "session_name" in
  msg_get message' "name" = session_name ->
  let s' := exec (FixToolAgent.handle_server_accept control message) s in
  outcome (FixToolAgent.handle_server_accept control message) s = Ok tt /\
  FixToolAgent._server_sessions s'.1
    = <[session_name := None]> (FixToolAgent._server_sessions s.1) /\
  responses s'
    = responses s ++ [(ControlSession._socket control,
                       ServerAcceptedMessage name true "" session_name)] /\
  FixToolAgent.handle_server_is_connected_request control' message' s'
    = ((s'.1, replied control'
                (ServerIsConnectedResponse session_name false
                   ("No such session " +:+ str session_name) false) s'.2),
       Ok tt).
Proof.
  intros Hname Hserver Hpending session_name Hnext s'. subst s'.
  unfold exec, outcome.
  rewrite (handle_server_accept_none_pending control message s name server)
    by done.
  fold session_name. destruct s as [a h]. simpl.
  split; [done|]. split; [by destruct a|]. split; [done|].
  rewrite <- Hnext. apply handle_server_is_connected_no_session.
  rewrite Hnext. unfold FixToolAgent.get_server_session. destruct a; simpl.
  by rewrite lookup_insert_eq.
Qed.

Lemma C9_accept_none_pending_binds_null_witness :
  let message := request "server_accept"
                   [("name"%string, VStr "S"); ("session_name"%string, VStr "X")] in
  let message' := request "server_is_connected_request" [("name"%string, VStr "X")] in
  let s' := exec (FixToolAgent.handle_server_accept control1 message) with_server_S in
  FixToolAgent._server_sessions s'.1 !! VStr "X" = Some None /\
  last (responses (exec (FixToolAgent.handle_server_is_connected_request
                           control1 message') s'))
  = Some (1%nat, ServerIsConnectedResponse (VStr "X") false "No such session X" false).
Proof.
  intros message message' s'.
  destruct (C9_accept_none_pending_binds_null control1 control1 message message'
              with_server_S (VStr "S") Server.init)
    as (_ & Htable & _ & Hnext); [reflexivity..|].
  split.
  - fold s' in Htable. rewrite Htable. apply lookup_insert_eq.
  - fold s' in Hnext. unfold exec. rewrite Hnext. reflexivity.
Defined.

(** ** Port validation *)

Section Ports.

Import FixToolAgent.

Implicit Types (s : State) (control : ControlSession.t) (message : Message).

Lemma bad_port_rejected port s :
  rejected_port port -> bad_port port s = (s, Ok true).
Proof.
  intros [-> | (z & -> & Hz)]; [done|].
  unfold bad_port. rewrite decide_False by done. run.
  destruct (bool_decide (z < 0)) eqn:Hlow; [done|].
  apply bool_decide_eq_false in Hlow.
  rewrite bool_decide_eq_true_2; [done | lia].
Qed.

Lemma bad_port_accepted z s :
  0 <= z <= 65535 -> bad_port (VInt z) s = (s, Ok false).
Proof.
  intros Hz. unfold bad_port. rewrite decide_False by done. run.
  rewrite bool_decide_eq_false_2 by lia.
  by rewrite bool_decide_eq_false_2 by lia.
Qed.

Lemma handle_server_listen_bad_port control message s name server :
  message !! "name" = Some name ->
  _servers s.1 !! name = Some server ->
  rejected_port (msg_get message "port") ->
  handle_server_listen control message s
  = ((s.1, replied control
             (ServerListenedMessage name false "Bad or missing port") s.2),
     Ok tt).
Proof.
  intros Hname Hserver Hport. destruct s as [a h].
  unfold handle_server_listen, msg_index. rewrite Hname. run.
  simpl in Hserver. rewrite Hserver.
  rewrite (bad_port_rejected _ _ Hport). by rewrite reply_spec.
Qed.

Lemma handle_server_unlisten_bad_port control message s name server :
  message !! "name" = Some name ->
  _servers s.1 !! name = Some server ->
  rejected_port (msg_get message "port") ->
  handle_server_unlisten control message s
  = ((s.1, replied control
             (ServerUnlistenedMessage name false "Bad or missing port") s.2),
     Ok tt).
Proof.
  intros Hname Hserver Hport. destruct s as [a h].
  unfold handle_server_unlisten, msg_index. rewrite Hname. run.
  simpl in Hserver. rewrite Hserver.
  rewrite (bad_port_rejected _ _ Hport). by rewrite reply_spec.
Qed.

End Ports.

(** C6, counterexample.  (1) [client_connect] for the existing client [A]
    with port 70000: the handler stores host and port in the client, then
    [connect] raises [OverflowError]; no response is sent.  (2)
    [server_listen] for the existing server [S] with the string ["80"] as
    port: the comparison [port < 0] raises [TypeError]; no response is
    sent. *)
Lemma C6_counterexample :
  let connect := request "client_connect"
                   [("name"%string, VStr "A"); ("host"%string, VStr "127.0.0.1");
                    ("port"%string, VInt 70000)] in
  let listen := request "server_listen"
                  [("name"%string, VStr "S"); ("port"%string, VStr "80")] in
  let s1 := exec (FixToolAgent.handle_client_connect control1 connect) with_client_A in
  let s2 := exec (FixToolAgent.handle_server_listen control1 listen) with_server_S in
  (outcome (FixToolAgent.handle_client_connect control1 connect) with_client_A
     = Raise OverflowError /\
   responses s1 = responses with_client_A /\
   Client._port <$> (FixToolAgent._clients with_client_A.1 !! VStr "A") = Some VNone /\
   Client._port <$> (FixToolAgent._clients s1.1 !! VStr "A") = Some (VInt 70000)) /\
  (outcome (FixToolAgent.handle_server_listen control1 listen) with_server_S
     = Raise TypeError /\
   responses s2 = responses with_server_S).
Proof. evaluate. Qed.

(** C6, as amended.  For [server_listen] and [server_unlisten] naming an
    existing server, a port that is missing, null, or an integer outside
    0-65535 changes nothing in the agent, its objects and the world; the one
    effect is a failure response with the reason [Bad or missing port]. *)
Theorem C6_listen_unlisten_reject_bad_port
    (control : ControlSession.t) (message : Message) (s : FixToolAgent.State)
    (name : value) (server : Server.t) :
  message !! "name" = Some name ->
  FixToolAgent._servers s.1 !! name = Some server ->
  rejected_port (msg_get message "port") ->
  FixToolAgent.handle_server_listen control message s
  = ((s.1, replied control
             (ServerListenedMessage name false "Bad or missing port") s.2),
     Ok tt) /\
  FixToolAgent.handle_server_unlisten control message s
  = ((s.1, replied control
             (ServerUnlistenedMessage name false "Bad or missing port") s.2),
     Ok tt).
Proof.
  intros Hname Hserver Hport. split.
  - by apply (handle_server_listen_bad_port control message s name server).
  - by apply (handle_server_unlisten_bad_port control message s name server).
Qed.

Lemma C6_listen_unlisten_reject_bad_port_witness :
  let message := request "server_listen"
                   [("name"%string, VStr "S"); ("port"%string, VInt 65536)] in
  FixToolAgent.handle_server_listen control1 message with_server_S
  = ((with_server_S.1,
      replied control1
        (ServerListenedMessage (VStr "S") false "Bad or missing port")
        with_server_S.2),
     Ok tt).
Proof.
  intros message.
  apply (C6_listen_unlisten_reject_bad_port control1 message with_server_S
           (VStr "S") Server.init).
  - reflexivity.
  - reflexivity.
  - right. exists 65536. split; [reflexivity | lia].
Defined.

(** ** Client names *)

Section ClientNames.

Import FixToolAgent.

Implicit Types (s : State) (control : ControlSession.t) (message : Message).

Lemma percent_already_exists name :
  percent "Client %s already exists" name
  = Ok ("Client " +:+ str name +:+ " already exists").
Proof. reflexivity. Qed.

Lemma already_exists_contains name :
  contains "already exists" ("Client " +:+ str name +:+ " already exists").
Proof.
  exists ("Client " +:+ str name +:+ " "), ""%string.
  rewrite !append_assoc. reflexivity.
Qed.

Lemma handle_client_create_existing control message s client :
  let name := msg_get message "name" in
  _clients s.1 !! name = Some client ->
  handle_client_create control message s
  = ((s.1, replied control
             (ClientCreatedMessage name false
                ("Client " +:+ str name +:+ " already exists")) s.2),
     Ok tt).
Proof.
  intros name Hclient. destruct s as [a h].
  unfold handle_client_create. run. fold name.
  simpl in Hclient. rewrite Hclient, percent_already_exists.
  cbn. by rewrite reply_spec.
Qed.

Lemma handle_client_create_fresh control message s :
  let name := msg_get message "name" in
  _clients s.1 !! name = None ->
  handle_client_create control message s
  = ((set_clients <[name := new_client name (next_fd (world s.2))]> s.1,
      replied control (ClientCreatedMessage name true "") (client_allocated s.2)),
     Ok tt).
Proof.
  intros name Hclient. destruct s as [a h].
  unfold handle_client_create. run. fold name.
  simpl in Hclient. rewrite Hclient.
  unfold Client.init, new_socket. run. by rewrite reply_spec.
Qed.

(** After [client_create] the name is in the table, whether the client was
    made by this request or was there before. *)
Lemma handle_client_create_present control message s :
  is_Some (_clients (exec (handle_client_create control message) s).1
             !! msg_get message "name").
Proof.
  unfold exec.
  destruct (_clients s.1 !! msg_get message "name") as [client|] eqn:Hclient.
  - rewrite (handle_client_create_existing _ _ _ client) by done.
    simpl. by rewrite Hclient.
  - rewrite handle_client_create_fresh by done.
    destruct s as [[] ?]. simpl. rewrite lookup_insert_eq. eauto.
Qed.

(** [client_destroy] of an existing client succeeds and frees the name. *)
Lemma handle_client_destroy_existing control message s client :
  let name := msg_get message "name" in
  _clients s.1 !! name = Some client ->
  let s' := exec (handle_client_destroy control message) s in
  outcome (handle_client_destroy control message) s = Ok tt /\
  _clients s'.1 = delete name (_clients s.1) /\
  responses s'
    = responses s ++ [(ControlSession._socket control,
                       ClientDestroyedMessage name true "")].
Proof.
  intros name Hclient s'. subst s'. destruct s as [a h].
  unfold exec, outcome, handle_client_destroy. run. fold name.
  simpl in Hclient. rewrite Hclient.
  unfold on_client, Client.destroy, Client.disconnect. run.
  destruct (Client._is_connected client); run;
    rewrite reply_spec; destruct a; cbn;
    (split; [done|]); (split; [|done]);
    by rewrite delete_insert_eq.
Qed.

End ClientNames.

(** C7.  With requests that carry the name [A]: a second [client_create]
    after a first is answered with a failure whose reason contains
    [already exists], and changes nothing but the list of responses sent, so
    the client table is as before; [client_destroy] then succeeds and removes
    the name; a further [client_create] succeeds and binds the name to a new,
    unconnected client. *)
Theorem C7_client_name_unique_until_destroyed
    (control : ControlSession.t) (create destroy : Message)
    (s : FixToolAgent.State) (A : value) :
  msg_get create "name" = A ->
  msg_get destroy "name" = A ->
  let s1 := exec (FixToolAgent.handle_client_create control create) s in
  let s2 := exec (FixToolAgent.handle_client_create control create) s1 in
  let s3 := exec (FixToolAgent.handle_client_destroy control destroy) s2 in
  let s4 := exec (FixToolAgent.handle_client_create control create) s3 in
  (exists why,
     FixToolAgent.handle_client_create control create s1
     = ((s1.1, replied control (ClientCreatedMessage A false why) s1.2), Ok tt) /\
     contains "already exists" why /\
     FixToolAgent._clients s2.1 = FixToolAgent._clients s1.1) /\
  (outcome (FixToolAgent.handle_client_destroy control destroy) s2 = Ok tt /\
   last (responses s3)
     = Some (ControlSession._socket control, ClientDestroyedMessage A true "") /\
   FixToolAgent._clients s3.1 !! A = None) /\
  (outcome (FixToolAgent.handle_client_create control create) s3 = Ok tt /\
   last (responses s4)
     = Some (ControlSession._socket control, ClientCreatedMessage A true "") /\
   FixToolAgent._clients s4.1 !! A = Some (new_client A (next_fd (world s3.2)))).
Proof.
  intros Hcreate Hdestroy s1 s2 s3 s4.
  destruct (handle_client_create_present control create s) as [client Hclient].
  fold s1 in Hclient.
  pose proof (handle_client_create_existing control create s1 client Hclient) as H2.
  cbn zeta in H2. rewrite Hcreate in H2, Hclient.
  assert (s2 = (s1.1, replied control
                        (ClientCreatedMessage A false
                           ("Client " +:+ str A +:+ " already exists")) s1.2))
    as Hs2 by (unfold s2, exec; by rewrite H2).
  split.
  { eexists. split; [exact H2|]. split; [apply already_exists_contains|].
    by rewrite Hs2. }
  assert (FixToolAgent._clients s2.1 !! msg_get destroy "name" = Some client)
    as Hclient2 by (by rewrite Hdestroy, Hs2).
  destruct (handle_client_destroy_existing control destroy s2 client Hclient2)
    as (Hok & Htable & Hsent).
  fold s3 in Htable, Hsent. rewrite Hdestroy in Htable, Hsent.
  assert (FixToolAgent._clients s3.1 !! msg_get create "name" = None) as Hgone
    by (by rewrite Hcreate, Htable, lookup_delete_eq).
  split.
  { split; [done|]. split; [by rewrite Hsent, last_snoc|].
    by rewrite <- Hcreate. }
  pose proof (handle_client_create_fresh control create s3 Hgone) as H4.
  cbn zeta in H4. rewrite Hcreate in H4.
  unfold s4, exec, outcome. rewrite H4. cbn.
  split; [done|]. split.
  - by rewrite last_snoc.
  - by rewrite lookup_insert_eq.
Qed.

Lemma C7_client_name_unique_until_destroyed_witness :
  let create := request "client_create" [("name"%string, VStr "A")] in
  let destroy := request "client_destroy" [("name"%string, VStr "A")] in
  let s1 := exec (FixToolAgent.handle_client_create control1 create) serving in
  let s2 := exec (FixToolAgent.handle_client_create control1 create) s1 in
  let s3 := exec (FixToolAgent.handle_client_destroy control1 destroy) s2 in
  FixToolAgent._clients s3.1 !! VStr "A" = None.
Proof.
  intros create destroy s1 s2 s3.
  destruct (C7_client_name_unique_until_destroyed control1 create destroy
              serving (VStr "A")) as (_ & (_ & _ & Hgone) & _).
  - vm_compute. reflexivity.
  - vm_compute. reflexivity.
  - exact Hgone.
Defined.

(** ** The socket of a client *)

Section ClientSocket.

Implicit Types (c : Client.t) (w : World).


Lemma client_connect_spec c w host port :
  sockets w !! Client._socket c = Some SockOpen ->
  0 <= port <= 65535 ->
  (host, port) ∈ accepting w ->
  Client.connect (VStr host) (VInt port) (c, w)
  = ((Client.set_is_connected true
        (Client.set_address (VStr host) (VInt port) c),
      set_readers <[Client._socket c := cb_client_readable]>
        (set_sockets <[Client._socket c := SockConnected]> w)),
     Ok tt).
Proof.
  intros Hopen Hport Hpeer. unfold Client.connect, sock_connect, add_reader. run.
  rewrite decide_True by done. run. rewrite Hopen.
  by rewrite bool_decide_eq_true_2.
Qed.

Lemma client_disconnect_spec c w :
  Client.disconnect (c, w)
  = ((Client.set_is_connected false c,
      set_sockets <[Client._socket c := SockClosed]>
        (set_readers (delete (Client._socket c)) w)),
     Ok tt).
Proof. reflexivity. Qed.

(** A zero-length read on a client is its [disconnect]. *)
Lemma client_readable_peer_closed c w decoded :
  Client.readable [] decoded (c, w) = Client.disconnect (c, w).
Proof. reflexivity. Qed.

End ClientSocket.




(** ** Peer close *)

Section PeerClose.

(** A zero-length read on a session clears the flag and nothing else: the
    world, with the sockets and the reactor registrations, is as before. *)
Lemma session_readable_peer_closed (x : ServerSession.t) (w : World) decoded :
  ServerSession.readable [] decoded (x, w)
  = ((ServerSession.set_is_connected false x, w), Ok tt).
Proof. reflexivity. Qed.

End PeerClose.

(** C5 (violated by the code for [ServerSession]).  The connected session
    [X] (object 0, socket 3) reads zero bytes: its flag is cleared and no
    response is sent, but it keeps its socket, which stays open, and its
    read callback stays registered with the reactor. *)
Theorem C5_session_peer_close_keeps_reader :
  let s' := exec (session_reads 0%nat [] []) with_session_X in
  (FixToolAgent._server_sessions with_session_X.1 !! VStr "X" = Some (Some 0%nat) /\
   ServerSession._is_connected (session_objs with_session_X.2 !!! 0%nat) = true /\
   ServerSession._socket (session_objs with_session_X.2 !!! 0%nat) = Some 3%nat) /\
  outcome (session_reads 0%nat [] []) with_session_X = Ok tt /\
  ServerSession._is_connected (session_objs s'.2 !!! 0%nat) = false /\
  responses s' = responses with_session_X /\
  ServerSession._socket (session_objs s'.2 !!! 0%nat) = Some 3%nat /\
  sockets (world s'.2) !! 3%nat = Some SockConnected /\
  readers (world s'.2) !! 3%nat = Some cb_session_readable.
Proof. evaluate. Qed.

(** ** Destroying a server *)

Section ServerDestroy.

Import FixToolAgent.

Implicit Types (s : State) (control : ControlSession.t) (message : Message)
  (h : Store) (x : ServerSession.t) (r : ref).

(** The session table of the agent is the same after [server_destroy],
    whatever the request and whether or not the handler raises. *)
Lemma handle_server_destroy_keeps_session_table control message s :
  _server_sessions (exec (handle_server_destroy control message) s).1
  = _server_sessions s.1.
Proof.
  destruct s as [a h]. unfold exec, handle_server_destroy. run.
  destruct (_servers a !! msg_get message "name") as [server|].
  - unfold on_server. run.
    destruct (Server.destroy (server, h)) as [[v' h'] [[]|e]]; cbn.
    + rewrite reply_spec. by destruct a.
    + by destruct a.
  - destruct (percent _ _); cbn; [by rewrite reply_spec | done].
Qed.

Lemma session_destroy_spec x w :
  closable x ->
  exists x' w', ServerSession.destroy (x, w) = ((x', w'), Ok tt) /\
    destroyed x' /\ sent w' = sent w.
Proof.
  intros Hx. unfold ServerSession.destroy, ServerSession.disconnect. run.
  destruct (ServerSession._is_connected x) eqn:Hc.
  - destruct (Hx Hc) as [sock Hsock]. run. rewrite Hsock.
    unfold remove_reader. run.
    do 2 eexists. split; [done|]. by destruct w.
  - run. do 2 eexists. split; [done|]. done.
Qed.

Lemma on_session_destroy_spec r h :
  all_closable h ->
  exists h', on_session r ServerSession.destroy h = (h', Ok tt) /\
    destroyed (session_objs h' !!! r) /\
    (forall r', r' <> r -> session_objs h' !!! r' = session_objs h !!! r') /\
    sent (world h') = sent (world h).
Proof.
  intros Hh. unfold on_session, zoom.
  destruct (session_destroy_spec (session_objs h !!! r) (world h) (Hh r))
    as (x' & w' & -> & Hx' & Hsent).
  eexists. split; [done|]. cbn.
  split; [by rewrite lookup_total_insert_eq|].
  split; [|done]. intros r' Hne. by rewrite lookup_total_insert_ne.
Qed.

(** The loops of [Server.destroy]. *)
Lemma destroy_each_spec (v : Server.t) (rs : list ref) : forall h,
  all_closable h ->
  exists h',
    for_each rs (fun session =>
      in_store (on_session session ServerSession.destroy)) (v, h)
    = ((v, h'), Ok tt) /\
    all_closable h' /\
    (forall r, r ∈ rs \/ destroyed (session_objs h !!! r) ->
               destroyed (session_objs h' !!! r)) /\
    sent (world h') = sent (world h).
Proof.
  induction rs as [|r0 rs IH]; intros h Hh.
  - exists h. split; [done|]. split; [done|]. split; [|done].
    intros r [Hin|Hd]; [by apply elem_of_nil in Hin | done].
  - destruct (on_session_destroy_spec r0 h Hh) as (h1 & Hrun & Hd0 & Hrest & Hsent1).
    assert (all_closable h1) as Hh1.
    { intros r. destruct (decide (r = r0)) as [->|Hne].
      - intros Hc. destruct Hd0 as [Hd0 _]. congruence.
      - rewrite Hrest by done. apply Hh. }
    destruct (IH h1 Hh1) as (h' & Hloop & Hh' & Hd & Hsent).
    exists h'. split.
    { cbn [for_each]. unfold bind at 1. unfold in_store at 1, zoom.
      cbn. rewrite Hrun. cbn. exact Hloop. }
    split; [done|]. split; [|congruence].
    intros r [Hin|Hdr]; apply Hd.
    + apply elem_of_cons in Hin as [->|Hin]; [by right | by left].
    + right. destruct (decide (r = r0)) as [->|Hne]; [done|].
      by rewrite Hrest.
Qed.

(** [Server.destroy] on a server that does not listen. *)
Lemma server_destroy_idle (server : Server.t) h :
  Server._socket server = None ->
  all_closable h ->
  exists h',
    Server.destroy (server, h)
    = ((Server.set_accepted (fun _ => ∅)
          (Server.set_pending (fun _ => []) server), h'), Ok tt) /\
    all_closable h' /\
    (forall r, r ∈ Server._pending_sessions server \/
               (exists n, Server._accepted_sessions server !! n = Some r) ->
               destroyed (session_objs h' !!! r)) /\
    sent (world h') = sent (world h).
Proof.
  intros Hidle Hh. unfold Server.destroy. step. rewrite Hidle. step.
  destruct (destroy_each_spec server (Server._pending_sessions server) h Hh)
    as (h1 & -> & Hh1 & Hd1 & Hsent1). step.
  change (Server._accepted_sessions (Server.set_pending (fun _ => []) server))
    with (Server._accepted_sessions server).
  destruct (destroy_each_spec (Server.set_pending (fun _ => []) server)
              (map_to_list (Server._accepted_sessions server)).*2 h1 Hh1)
    as (h2 & -> & Hh2 & Hd2 & Hsent2). step.
  exists h2. split; [done|]. split; [done|]. split; [|congruence].
  intros r [Hin|[n Hn]]; apply Hd2.
  - right. apply Hd1. by left.
  - left. apply list_elem_of_fmap. exists (n, r). split; [done|].
    by apply elem_of_map_to_list.
Qed.

(** [server_destroy] of an existing server that does not listen, with the
    name of one of its accepted sessions still in the agent's table: the
    server is removed, the session is destroyed, the name resolves as
    before and [server_is_connected_request] reports the session as not
    connected. *)
Lemma server_destroy_leaves_session_names control control' message message'
    s server r :
  let name := msg_get message "name" in
  let session_name := msg_get message' "name" in
  _servers s.1 !! name = Some server ->
  Server._socket server = None ->
  all_closable s.2 ->
  get_server_session s.1 session_name = Some r ->
  (exists n, Server._accepted_sessions server !! n = Some r) ->
  let s' := exec (handle_server_destroy control message) s in
  let s'' := exec (handle_server_is_connected_request control' message') s' in
  outcome (handle_server_destroy control message) s = Ok tt /\
  _servers s'.1 !! name = None /\
  responses s'
    = responses s ++ [(ControlSession._socket control,
                       ServerDestroyedMessage name true "")] /\
  get_server_session s'.1 session_name = Some r /\
  destroyed (session_objs s'.2 !!! r) /\
  outcome (handle_server_is_connected_request control' message') s' = Ok tt /\
  last (responses s'')
    = Some (ControlSession._socket control',
            ServerIsConnectedResponse session_name true "" false).
Proof.
  intros name session_name Hserver Hidle Hh Hresolve Haccepted s' s''.
  destruct s as [a h]. cbn in Hserver, Hh, Hresolve.
  destruct (server_destroy_idle server h Hidle Hh) as (h' & Hrun & Hh' & Hd & Hsent).
  assert (handle_server_destroy control message (a, h)
          = ((set_servers (delete name) a,
              replied control (ServerDestroyedMessage name true "") h'), Ok tt))
    as Hhandler.
  { unfold handle_server_destroy. run. fold name. rewrite Hserver.
    unfold on_server. run. rewrite Hrun. run. rewrite reply_spec. cbn.
    destruct a. unfold set_servers. cbn. by rewrite delete_insert_eq. }
  subst s''. subst s'. unfold exec, outcome. rewrite Hhandler. cbn.
  split; [done|]. split; [by destruct a; cbn; rewrite lookup_delete_eq|].
  split; [unfold responses; cbn; by rewrite Hsent|].
  split; [by destruct a|].
  assert (destroyed (session_objs h' !!! r)) as [Hflag Hqueue] by (apply Hd; by right).
  split; [done|].
  unfold handle_server_is_connected_request. run. fold session_name.
  assert (get_server_session (set_servers (delete name) a) session_name = Some r)
    as -> by (by destruct a).
  unfold on_session, ServerSession.is_connected. run.
  rewrite reply_spec. cbn. rewrite Hflag. split; [done|].
  unfold responses. cbn. by rewrite last_snoc.
Qed.

End ServerDestroy.

(** C10 (violated by the code for a listening server).  Server [S] listens
    and has the accepted, connected session [X].  [server_destroy] for [S]
    raises [TypeError] at [self.unlisten()]: no response is sent, [S] stays
    in the server table, the session table is unchanged, and session [X] is
    not destroyed: a following [server_is_connected_request] for [X] still
    reports it as connected. *)
Theorem C10_destroy_listening_server_raises :
  let destroy := request "server_destroy" [("name"%string, VStr "S")] in
  let query := request "server_is_connected_request" [("name"%string, VStr "X")] in
  let s' := exec (FixToolAgent.handle_server_destroy control1 destroy) with_session_X in
  let s'' := exec (FixToolAgent.handle_server_is_connected_request control1 query) s' in
  (Server._socket <$> (FixToolAgent._servers with_session_X.1 !! VStr "S")
     = Some (Some 2%nat) /\
   FixToolAgent._server_sessions with_session_X.1 !! VStr "X" = Some (Some 0%nat)) /\
  outcome (FixToolAgent.handle_server_destroy control1 destroy) with_session_X
    = Raise TypeError /\
  responses s' = responses with_session_X /\
  FixToolAgent._servers s'.1 !! VStr "S"
    = FixToolAgent._servers with_session_X.1 !! VStr "S" /\
  FixToolAgent._server_sessions s'.1 = FixToolAgent._server_sessions with_session_X.1 /\
  ServerSession._is_connected (session_objs s'.2 !!! 0%nat) = true /\
  last (responses s'')
    = Some (1%nat, ServerIsConnectedResponse (VStr "X") true "" true).
Proof. evaluate. Qed.

(** ** Sessions stay closable *)

Section Closable.

Implicit Types (x : ServerSession.t) (w : World).

Lemma closable_init sock w x w' :
  ServerSession.init sock w = (w', Ok x) -> closable x.
Proof. intros [= _ <-]. intros _. by eexists. Qed.

Lemma closable_not_connected x :
  ServerSession._is_connected x = false -> closable x.
Proof. intros Hx Hc. congruence. Qed.

Lemma closable_set_name name x w :
  closable x -> closable (exec (ServerSession.set_name name) (x, w)).1.
Proof. done. Qed.

Lemma closable_disconnect x w :
  closable x -> closable (exec ServerSession.disconnect (x, w)).1.
Proof.
  intros Hx. unfold exec, ServerSession.disconnect, remove_reader. run.
  destruct (ServerSession._socket x) as [sock|]; run; [|done].
  by apply closable_not_connected.
Qed.

Lemma closable_readable buf decoded x w :
  closable x -> closable (exec (ServerSession.readable buf decoded) (x, w)).1.
Proof.
  intros Hx. unfold exec, ServerSession.readable.
  destruct (decide (len buf = 0)); [by apply closable_not_connected|].
  revert x Hx. induction decoded as [|m ms IH]; intros x Hx; [done|].
  cbn [for_each]. run. by apply IH.
Qed.

End Closable.

(** Server [S] has stopped listening and is destroyed: the name [X] still
    resolves, to a session that is now destroyed and reported as not
    connected. *)
Lemma server_destroy_leaves_session_names_example :
  let destroy := request "server_destroy" [("name"%string, VStr "S")] in
  let query := request "server_is_connected_request" [("name"%string, VStr "X")] in
  let s' := exec (FixToolAgent.handle_server_destroy control1 destroy)
              with_idle_server_S in
  FixToolAgent.get_server_session s'.1 (VStr "X") = Some 0%nat /\
  destroyed (session_objs s'.2 !!! 0%nat) /\
  last (responses (exec (FixToolAgent.handle_server_is_connected_request
                           control1 query) s'))
  = Some (1%nat, ServerIsConnectedResponse (VStr "X") true "" false).
Proof.
  intros destroy query s'.
  destruct (server_destroy_leaves_session_names control1 control1 destroy query
              with_idle_server_S
              (Server.mk true true false 0 0 [] {[VStr "X" := 0%nat]} None) 0%nat)
    as (_ & _ & _ & Hresolve & Hdestroyed & _ & Hlast).
  - vm_compute. reflexivity.
  - reflexivity.
  - assert (session_objs with_idle_server_S.2
            = <[0%nat := ServerSession.mk (Some 3%nat) (VStr "X") true []]> ∅)
      as Hobjs by (vm_compute; reflexivity).
    intros r. rewrite Hobjs. destruct (decide (r = 0%nat)) as [->|Hne].
    + rewrite lookup_total_insert_eq. intros _. by eexists.
    + rewrite lookup_total_insert_ne by done. by apply closable_not_connected.
  - vm_compute. reflexivity.
  - exists (VStr "X"). vm_compute. reflexivity.
  - split; [exact Hresolve | split; [exact Hdestroyed | exact Hlast]].
Qed.

(** * Further properties of the code *)

(** ** The frame codec, for every buffer and chunk *)

Section CodecTotal.

Lemma unpack_L_four (b : bytes) :
  length b = 4%nat -> exists z, unpack_L b = Ok z /\ 0 <= z.
Proof.
  destruct b as [|b3 [|b2 [|b1 [|b0 [|]]]]]; try discriminate. intros _.
  eexists. split; [reflexivity|]. unfold Z_of_byte. lia.
Qed.

End CodecTotal.

Lemma append_bytes_cases (cs : ControlSession.t) (chunk : bytes) :
  kept cs chunk \/ exists p rest, released cs chunk p rest.
Proof.
  unfold kept, released. destruct cs as [sock old]. cbn.
  set (B := old ++ chunk).
  unfold ControlSession.append_bytes, ControlSession.set_buffer. run. fold B.
  destruct (decide (len B <= 4)) as [|Hlong]; [left; split; [by left | done]|].
  assert (length (take 4 B) = 4%nat) as Hl4
    by (rewrite length_take; unfold len in Hlong; lia).
  destruct (unpack_L_four _ Hl4) as (L & HL & HL0). rewrite HL. cbn.
  destruct (decide (len chunk < 4 + L)) as [|Henough];
    [left; split; [right; by exists L | done]|].
  right. exists (take (Z.to_nat L) (drop 4 B)), (drop (Z.to_nat L) (drop 4 B)).
  split; [done|]. exists (take 4 B).
  assert (len chunk <= len B) by (unfold B; rewrite len_app; unfold len; lia).
  assert (len (take (Z.to_nat L) (drop 4 B)) = L) as Hp.
  { unfold len in *. rewrite length_take, length_drop. lia. }
  split; [by rewrite !take_drop|]. split; [done|].
  rewrite Hp. split; [done | lia].
Qed.

(** X1.  [append_bytes] never raises and never loses or invents bytes.  With
    [B] the old buffer followed by the chunk: either [B] has at most four
    bytes, or the chunk alone is shorter than the frame its header
    announces, and then the call returns [None] and the buffer is [B]; or
    the call returns a payload [p], and then [B] is a four-byte header that
    encodes the length of [p], followed by [p] and by the new buffer, and
    the chunk alone was at least as long as that frame. *)
Theorem X1_append_bytes_keeps_or_releases (cs : ControlSession.t) (chunk : bytes) :
  kept cs chunk \/ exists p rest, released cs chunk p rest.
Proof. apply append_bytes_cases. Qed.

(** X2.  A non-empty payload shorter than [2^32] bytes survives the round
    trip: [send] writes one frame, and that frame, arriving whole at a
    session with an empty buffer, is decoded to the payload and leaves the
    buffer empty. *)
Theorem X2_send_then_append_bytes_round_trip
    (cs : ControlSession.t) (w : World) (sock : fd) (payload : bytes) :
  payload <> [] -> len payload < 2 ^ 32 ->
  exists f,
    ControlSession.send payload (cs, w)
      = ((cs, written (ControlSession._socket cs) f w), Ok tt) /\
    ControlSession.append_bytes f (ControlSession.init sock)
      = (ControlSession.init sock, Ok (Some payload)).
Proof.
  intros Hne Hlen. destruct (roundtrip_nonempty sock payload Hne Hlen) as (f & Hf & Hback).
  exists f. split; [by apply send_frame | done].
Qed.

Lemma X2_send_then_append_bytes_round_trip_witness :
  exists f,
    ControlSession.send [x61; x62] (control1, world0)
      = ((control1, written 1%nat f world0), Ok tt) /\
    ControlSession.append_bytes f (ControlSession.init 7%nat)
      = (ControlSession.init 7%nat, Ok (Some [x61; x62])).
Proof.
  apply (X2_send_then_append_bytes_round_trip control1 world0 7%nat [x61; x62]).
  - discriminate.
  - vm_compute. reflexivity.
Defined.

(** X3.  A frame that reaches a new session in two or more non-empty pieces
    is never returned: every [append_bytes] call returns [None], and the
    whole frame stays in the buffer. *)
Theorem X3_frame_in_pieces_is_never_returned
    (sock : fd) (payload f : bytes) (chunks : list bytes) :
  frame payload = Ok f -> f = concat chunks ->
  Forall (fun c => c <> []) chunks -> (2 <= length chunks)%nat ->
  feed chunks (ControlSession.init sock)
    = (ControlSession.mk sock f, replicate (length chunks) (Ok None)) /\
  decoded (feed chunks (ControlSession.init sock)).2 = [].
Proof. apply frame_in_pieces_never_decoded. Qed.

Lemma X3_frame_in_pieces_is_never_returned_witness :
  feed [[x00; x00]; [x00; x02; x61]; [x62]] (ControlSession.init 1%nat)
  = (ControlSession.mk 1%nat frame_ab, [Ok None; Ok None; Ok None]).
Proof.
  apply (X3_frame_in_pieces_is_never_returned 1%nat [x61; x62] frame_ab
           [[x00; x00]; [x00; x02; x61]; [x62]]).
  - reflexivity.
  - reflexivity.
  - repeat constructor; discriminate.
  - simpl. lia.
Defined.

(** ** Reads on a control connection *)

(** X4.  One read with data on a known control connection dispatches at most
    one payload.  Either [append_bytes] keeps the bytes, and then the read
    only stores the longer buffer; or it releases a payload, and then the
    read is the dispatch of exactly that payload, the session holding the
    rest of the bytes. *)
Theorem X4_readable_dispatches_at_most_one
    (json_loads : bytes -> result Message) (sock : fd) (buf : bytes)
    (s : FixToolAgent.State) (cs : ControlSession.t) :
  FixToolAgent._control_sessions s.1 !! sock = Some cs ->
  buf <> [] ->
  (kept cs buf /\
   FixToolAgent.readable json_loads sock buf s
   = ((FixToolAgent.set_control_sessions
         <[sock := ControlSession.mk (ControlSession._socket cs)
                     (ControlSession._buffer cs ++ buf)]> s.1, s.2), Ok tt))
  \/ exists p rest,
       released cs buf p rest /\
       FixToolAgent.readable json_loads sock buf s
       = FixToolAgent.dispatch json_loads
           (ControlSession.mk (ControlSession._socket cs) rest) p
           (FixToolAgent.set_control_sessions
              <[sock := ControlSession.mk (ControlSession._socket cs) rest]> s.1,
            s.2).
Proof.
  intros Hcs Hbuf. destruct s as [a h]. cbn in Hcs.
  assert (len buf <> 0) as Hlen by (destruct buf; [done | unfold len; cbn; lia]).
  destruct (append_bytes_cases cs buf) as [Hkept | (p & rest & Hrel)].
  - left. split; [done|]. destruct Hkept as [_ Hrun].
    unfold FixToolAgent.readable. run. rewrite Hcs.
    rewrite decide_False by done. by rewrite Hrun.
  - right. exists p, rest. split; [done|]. destruct Hrel as [Hrun _].
    unfold FixToolAgent.readable. run. rewrite Hcs.
    rewrite decide_False by done. by rewrite Hrun.
Qed.

Lemma X4_readable_dispatches_at_most_one_witness :
  (kept control1 [x00; x00; x00] /\
   FixToolAgent.readable no_json 1%nat [x00; x00; x00] serving
   = ((FixToolAgent.set_control_sessions
         <[1%nat := ControlSession.mk 1%nat ([] ++ [x00; x00; x00])]> serving.1,
       serving.2), Ok tt))
  \/ exists p rest,
       released control1 [x00; x00; x00] p rest /\
       FixToolAgent.readable no_json 1%nat [x00; x00; x00] serving
       = FixToolAgent.dispatch no_json (ControlSession.mk 1%nat rest) p
           (FixToolAgent.set_control_sessions
              <[1%nat := ControlSession.mk 1%nat rest]> serving.1, serving.2).
Proof.
  apply (X4_readable_dispatches_at_most_one no_json 1%nat [x00; x00; x00]
           serving control1).
  - vm_compute. reflexivity.
  - discriminate.
Defined.

(** X5.  A zero-length read on a known control connection closes it: the
    session leaves the table, the reader is removed and the socket closed;
    nothing is sent and no other table changes.  A later read callback for
    the same socket raises [KeyError] and changes nothing. *)
Theorem X5_control_peer_close
    (json_loads : bytes -> result Message) (sock : fd) (buf : bytes)
    (s : FixToolAgent.State) (cs : ControlSession.t) :
  FixToolAgent._control_sessions s.1 !! sock = Some cs ->
  FixToolAgent.readable json_loads sock [] s = (control_closed sock cs s, Ok tt) /\
  responses (control_closed sock cs s) = responses s /\
  FixToolAgent.readable json_loads sock buf (control_closed sock cs s)
  = (control_closed sock cs s, Raise KeyError).
Proof.
  intros Hcs. destruct s as [a h]. cbn in Hcs. split; [|split].
  - unfold FixToolAgent.readable, remove_reader, sock_close. run.
    rewrite Hcs. by destruct h as [[] ? ?].
  - done.
  - unfold FixToolAgent.readable, control_closed. run.
    destruct a. cbn. by rewrite lookup_delete_eq.
Qed.

Lemma X5_control_peer_close_witness :
  FixToolAgent.readable no_json 1%nat [] serving
  = (control_closed 1%nat control1 serving, Ok tt).
Proof.
  apply (X5_control_peer_close no_json 1%nat [] serving control1).
  vm_compute. reflexivity.
Defined.

(** ** Requests that do nothing, and requests for unknown names *)

(** X6.  A request whose [type] is none of the twelve types with a handler
    (among them [server_queue_length], [server_get_message] and
    [server_send_message], which are named in [handle_request]) is dropped:
    no response is sent and nothing changes. *)
Theorem X6_unhandled_type_is_dropped
    (control : ControlSession.t) (message : Message) (s : FixToolAgent.State)
    (t : value) :
  message !! "type" = Some t ->
  Forall (fun k => t <> VStr k) dispatched_types ->
  FixToolAgent.handle_request control message s = (s, Ok tt).
Proof.
  intros Htype Hnone. unfold FixToolAgent.handle_request, msg_index.
  rewrite Htype. run. unfold dispatched_types in Hnone.
  repeat (apply Forall_cons in Hnone as [? Hnone]).
  repeat (rewrite decide_False by done). done.
Qed.

Lemma X6_unhandled_type_is_dropped_witness :
  FixToolAgent.handle_request control1
    (request "server_get_message" [("name"%string, VStr "X")]) with_session_X
  = (with_session_X, Ok tt).
Proof.
  apply (X6_unhandled_type_is_dropped control1
           (request "server_get_message" [("name"%string, VStr "X")])
           with_session_X (VStr "server_get_message")).
  - vm_compute. reflexivity.
  - repeat constructor; discriminate.
Defined.

(** X7.  [client_destroy], [client_connect] and [server_destroy] for a name
    that is not in the table send no failure response: the reason is built
    from a format without conversion (['$s']), the [%] operator raises
    [TypeError], and the handler ends there with nothing changed. *)
Theorem X7_unknown_name_raises_type_error
    (control : ControlSession.t) (message : Message) (s : FixToolAgent.State) :
  FixToolAgent._clients s.1 !! msg_get message "name" = None ->
  FixToolAgent._servers s.1 !! msg_get message "name" = None ->
  FixToolAgent.handle_client_destroy control message s = (s, Raise TypeError) /\
  FixToolAgent.handle_client_connect control message s = (s, Raise TypeError) /\
  FixToolAgent.handle_server_destroy control message s = (s, Raise TypeError).
Proof.
  intros Hclient Hserver. destruct s as [a h]. cbn in Hclient, Hserver.
  unfold FixToolAgent.handle_client_destroy, FixToolAgent.handle_client_connect,
    FixToolAgent.handle_server_destroy.
  run. by rewrite Hclient, Hserver.
Qed.

Lemma X7_unknown_name_raises_type_error_witness :
  FixToolAgent.handle_client_destroy control1
    (request "client_destroy" [("name"%string, VStr "nobody")]) serving
  = (serving, Raise TypeError).
Proof.
  apply (X7_unknown_name_raises_type_error control1
           (request "client_destroy" [("name"%string, VStr "nobody")]) serving);
    vm_compute; reflexivity.
Defined.

(** ** Queries *)

Section Queries.

Lemma percent_no_such_client name :
  percent "No such client %s" name = Ok ("No such client " +:+ str name).
Proof.
  change (percent "No such client %s" name)
    with (Ok (A := string) ("No such client " +:+ (str name +:+ ""))).
  by rewrite append_nil_r.
Qed.

Lemma percent_no_such_server name :
  percent "No such server '%s'" name = Ok ("No such server '" +:+ str name +:+ "'").
Proof. reflexivity. Qed.

End Queries.

Lemma client_is_connected_answer
    (control : ControlSession.t) (message : Message) (s : FixToolAgent.State) :
  let name := msg_get message "name" in
  FixToolAgent.handle_client_is_connected_request control message s
  = ((s.1,
      replied control
        (match FixToolAgent._clients s.1 !! name with
         | Some client =>
             ClientIsConnectedResponse name true "" (Client._is_connected client)
         | None =>
             ClientIsConnectedResponse name false
               ("No such client " +:+ str name) false
         end) s.2),
     Ok tt).
Proof.
  intros name. destruct s as [a h].
  unfold FixToolAgent.handle_client_is_connected_request. run. fold name.
  destruct (FixToolAgent._clients a !! name) as [client|] eqn:Hclient.
  - unfold FixToolAgent.on_client, Client.is_connected. run.
    rewrite reply_spec. cbn. destruct a, h.
    unfold FixToolAgent.set_clients. cbn in *. by rewrite insert_id.
  - rewrite percent_no_such_client. cbn. by rewrite reply_spec.
Qed.

(** X8.  [client_is_connected_request] only answers: for a known client the
    response reports success and the client's connection flag, for an
    unknown name it reports failure with the reason [No such client] and the
    name; the agent, its objects and the world are unchanged. *)
Theorem X8_client_is_connected_only_answers
    (control : ControlSession.t) (message : Message) (s : FixToolAgent.State) :
  let name := msg_get message "name" in
  FixToolAgent.handle_client_is_connected_request control message s
  = ((s.1,
      replied control
        (match FixToolAgent._clients s.1 !! name with
         | Some client =>
             ClientIsConnectedResponse name true "" (Client._is_connected client)
         | None =>
             ClientIsConnectedResponse name false
               ("No such client " +:+ str name) false
         end) s.2),
     Ok tt).
Proof. apply client_is_connected_answer. Qed.

(** X9.  [server_pending_accept_request] only answers: for a known server
    the response reports success and the length of the server's queue of
    pending sessions, for an unknown name failure with count 0; nothing else
    changes.  Without a [name] field the handler raises [KeyError]. *)
Theorem X9_pending_accept_count
    (control : ControlSession.t) (message : Message) (s : FixToolAgent.State) :
  FixToolAgent.handle_server_pending_accept_request control message s
  = match message !! "name" with
    | None => (s, Raise KeyError)
    | Some name =>
        ((s.1,
          replied control
            (match FixToolAgent._servers s.1 !! name with
             | Some server =>
                 ServerPendingAcceptCountResponse name true ""
                   (length (Server._pending_sessions server))
             | None =>
                 ServerPendingAcceptCountResponse name false
                   ("No such server '" +:+ str name +:+ "'") 0
             end) s.2),
         Ok tt)
    end.
Proof.
  destruct s as [a h].
  unfold FixToolAgent.handle_server_pending_accept_request, msg_index.
  destruct (message !! "name") as [name|]; [|done]. run.
  destruct (FixToolAgent._servers a !! name) as [server|].
  - by rewrite reply_spec.
  - rewrite percent_no_such_server. cbn. by rewrite reply_spec.
Qed.

(** ** Connecting a client *)

(** X10.  [client_connect] for a known client whose socket is open and
    unconnected, with a string host and a port in 0-65535 that the peer
    accepts: host and port are stored in the client, its socket is
    connected and registered for reading, its flag is set, and one success
    response is sent. *)
Theorem X10_client_connect_succeeds
    (control : ControlSession.t) (message : Message) (s : FixToolAgent.State)
    (client : Client.t) (host : string) (port : Z) :
  let name := msg_get message "name" in
  FixToolAgent._clients s.1 !! name = Some client ->
  sockets (world s.2) !! Client._socket client = Some SockOpen ->
  msg_get message "host" = VStr host ->
  msg_get message "port" = VInt port ->
  0 <= port <= 65535 ->
  (host, port) ∈ accepting (world s.2) ->
  FixToolAgent.handle_client_connect control message s
  = ((FixToolAgent.set_clients
        <[name := Client.set_is_connected true
                    (Client.set_address (VStr host) (VInt port) client)]> s.1,
      replied control (ClientConnectedMessage name true "")
        (mkStore (client_connected (Client._socket client) (world s.2))
                 (session_objs s.2) (next_ref s.2))),
     Ok tt).
Proof.
  intros name Hclient Hopen Hhost Hport Hrange Hpeer. destruct s as [a h].
  cbn in Hclient, Hopen, Hpeer.
  unfold FixToolAgent.handle_client_connect. step. fold name.
  rewrite Hclient, Hhost, Hport. unfold FixToolAgent.on_client. step.
  rewrite (client_connect_spec client (world h) host port) by done.
  step. by rewrite reply_spec.
Qed.

Lemma X10_client_connect_succeeds_witness :
  let message := request "client_connect"
                   [("name"%string, VStr "A"); ("host"%string, VStr "127.0.0.1");
                    ("port"%string, VInt 9000)] in
  let s' := exec (FixToolAgent.handle_client_connect control1 message) with_client_A in
  outcome (FixToolAgent.handle_client_connect control1 message) with_client_A = Ok tt /\
  Client._is_connected <$> (FixToolAgent._clients s'.1 !! VStr "A") = Some true.
Proof.
  intros message s'. subst s'. unfold exec, outcome.
  rewrite (X10_client_connect_succeeds control1 message with_client_A
             (new_client (VStr "A") 2%nat) "127.0.0.1" 9000).
  - split; [reflexivity|]. vm_compute. reflexivity.
  - vm_compute. reflexivity.
  - vm_compute. reflexivity.
  - vm_compute. reflexivity.
  - vm_compute. reflexivity.
  - lia.
  - vm_compute. left.
Defined.

(** X11.  [client_connect] for a known client whose socket is not open and
    unconnected any more (it is connected already, or was closed by a
    disconnect), with a well-formed address: [connect] raises [OSError]; no
    response is sent; host and port of the request are stored in the client
    all the same, and its connection flag is as before. *)
Theorem X11_client_connect_on_used_socket_raises
    (control : ControlSession.t) (message : Message) (s : FixToolAgent.State)
    (client : Client.t) (host : string) (port : Z) (st : sock_state) :
  let name := msg_get message "name" in
  FixToolAgent._clients s.1 !! name = Some client ->
  sockets (world s.2) !! Client._socket client = Some st ->
  st <> SockOpen ->
  msg_get message "host" = VStr host ->
  msg_get message "port" = VInt port ->
  0 <= port <= 65535 ->
  FixToolAgent.handle_client_connect control message s
  = ((FixToolAgent.set_clients
        <[name := Client.set_address (VStr host) (VInt port) client]> s.1, s.2),
     Raise OSError).
Proof.
  intros name Hclient Hst Hused Hhost Hport Hrange. destruct s as [a h].
  cbn in Hclient, Hst.
  unfold FixToolAgent.handle_client_connect. run. fold name.
  rewrite Hclient, Hhost, Hport.
  unfold FixToolAgent.on_client, Client.connect, sock_connect. run.
  rewrite decide_True by done. run. rewrite Hst.
  destruct st; try done; by destruct h.
Qed.

Lemma X11_client_connect_on_used_socket_raises_witness :
  let connect := request "client_connect"
                   [("name"%string, VStr "A"); ("host"%string, VStr "127.0.0.1");
                    ("port"%string, VInt 9000)] in
  let s1 := exec (FixToolAgent.handle_client_connect control1 connect) with_client_A in
  outcome (FixToolAgent.handle_client_connect control1 connect) s1 = Raise OSError /\
  responses (exec (FixToolAgent.handle_client_connect control1 connect) s1)
  = responses s1.
Proof.
  intros connect s1. unfold exec, outcome.
  rewrite (X11_client_connect_on_used_socket_raises control1 connect s1
             (Client.set_is_connected true
                (Client.set_address (VStr "127.0.0.1") (VInt 9000)
                   (new_client (VStr "A") 2%nat)))
             "127.0.0.1" 9000 SockConnected).
  - split; reflexivity.
  - vm_compute. reflexivity.
  - vm_compute. reflexivity.
  - discriminate.
  - vm_compute. reflexivity.
  - vm_compute. reflexivity.
  - lia.
Defined.

(** ** Server names, listening *)

Section ServerHandlers.

Import FixToolAgent.

Implicit Types (s : State) (control : ControlSession.t) (message : Message).

Lemma percent_server_exists name :
  percent "Server '%s' already exists" name
  = Ok ("Server '" +:+ str name +:+ "' already exists").
Proof. reflexivity. Qed.

Lemma handle_server_create_fresh control message s :
  let name := msg_get message "name" in
  _servers s.1 !! name = None ->
  handle_server_create control message s
  = ((set_servers <[name := Server.init]> s.1,
      replied control (ServerCreatedMessage name true "") s.2), Ok tt).
Proof.
  intros name Hnone. destruct s as [a h]. cbn in Hnone.
  unfold handle_server_create. run. fold name. rewrite Hnone. run.
  by rewrite reply_spec.
Qed.

Lemma handle_server_create_existing control message s server :
  let name := msg_get message "name" in
  _servers s.1 !! name = Some server ->
  handle_server_create control message s
  = ((s.1, replied control
             (ServerCreatedMessage name false
                ("Server '" +:+ str name +:+ "' already exists")) s.2), Ok tt).
Proof.
  intros name Hsome. destruct s as [a h]. cbn in Hsome.
  unfold handle_server_create. run. fold name.
  rewrite Hsome, percent_server_exists. cbn. by rewrite reply_spec.
Qed.

(** A server without sockets and sessions is destroyed without touching the
    store. *)
Lemma server_destroy_fresh h :
  Server.destroy (Server.init, h) = ((Server.init, h), Ok tt).
Proof. by destruct h. Qed.

Lemma handle_server_destroy_fresh control message s :
  let name := msg_get message "name" in
  _servers s.1 !! name = Some Server.init ->
  handle_server_destroy control message s
  = ((set_servers (delete name) s.1,
      replied control (ServerDestroyedMessage name true "") s.2), Ok tt).
Proof.
  intros name Hsome. destruct s as [a h]. cbn in Hsome.
  unfold handle_server_destroy. step. fold name. rewrite Hsome.
  unfold on_server. rewrite server_destroy_fresh. step.
  rewrite reply_spec. cbn. destruct a. unfold set_servers. cbn.
  by rewrite delete_insert_eq.
Qed.

End ServerHandlers.

(** X12.  A server name is taken from [server_create] until
    [server_destroy].  For a name [A] that is free: [server_create] binds it
    to a new server that listens nowhere and has no sessions, creating no
    socket; a second [server_create] is answered with a failure whose
    reason contains [already exists] and changes no table; [server_destroy]
    of the still unused server succeeds and frees the name; and a further
    [server_create] succeeds again. *)
Theorem X12_server_name_unique_until_destroyed
    (control : ControlSession.t) (create destroy : Message)
    (s : FixToolAgent.State) (A : value) :
  msg_get create "name" = A ->
  msg_get destroy "name" = A ->
  FixToolAgent._servers s.1 !! A = None ->
  let s1 := exec (FixToolAgent.handle_server_create control create) s in
  let s2 := exec (FixToolAgent.handle_server_create control create) s1 in
  let s3 := exec (FixToolAgent.handle_server_destroy control destroy) s2 in
  let s4 := exec (FixToolAgent.handle_server_create control create) s3 in
  (FixToolAgent._servers s1.1 !! A = Some Server.init /\
   sockets (world s1.2) = sockets (world s.2) /\
   last (responses s1)
     = Some (ControlSession._socket control, ServerCreatedMessage A true "")) /\
  (s2.1 = s1.1 /\
   exists why, contains "already exists" why /\
     last (responses s2)
       = Some (ControlSession._socket control, ServerCreatedMessage A false why)) /\
  (outcome (FixToolAgent.handle_server_destroy control destroy) s2 = Ok tt /\
   FixToolAgent._servers s3.1 !! A = None /\
   last (responses s3)
     = Some (ControlSession._socket control, ServerDestroyedMessage A true "")) /\
  (FixToolAgent._servers s4.1 !! A = Some Server.init /\
   last (responses s4)
     = Some (ControlSession._socket control, ServerCreatedMessage A true "")).
Proof.
  intros Hcreate Hdestroy Hfree s1 s2 s3 s4.
  assert (s1 = (FixToolAgent.set_servers <[A := Server.init]> s.1,
                replied control (ServerCreatedMessage A true "") s.2)) as Hs1.
  { unfold s1, exec. rewrite handle_server_create_fresh by (by rewrite Hcreate).
    by rewrite Hcreate. }
  assert (FixToolAgent._servers s1.1 !! A = Some Server.init) as Hbound.
  { rewrite Hs1. destruct s as [[] ?]. cbn. by rewrite lookup_insert_eq. }
  assert (s2 = (s1.1, replied control
                        (ServerCreatedMessage A false
                           ("Server '" +:+ str A +:+ "' already exists")) s1.2))
    as Hs2.
  { unfold s2, exec.
    rewrite (handle_server_create_existing control create s1 Server.init)
      by (by rewrite Hcreate).
    by rewrite Hcreate. }
  assert (s3 = (FixToolAgent.set_servers (delete A) s2.1,
                replied control (ServerDestroyedMessage A true "") s2.2)) as Hs3.
  { unfold s3, exec. rewrite handle_server_destroy_fresh.
    - by rewrite Hdestroy.
    - by rewrite Hdestroy, Hs2. }
  assert (FixToolAgent._servers s3.1 !! A = None) as Hgone.
  { rewrite Hs3. destruct (s2.1). cbn. by rewrite lookup_delete_eq. }
  assert (s4 = (FixToolAgent.set_servers <[A := Server.init]> s3.1,
                replied control (ServerCreatedMessage A true "") s3.2)) as Hs4.
  { unfold s4, exec. rewrite handle_server_create_fresh by (by rewrite Hcreate).
    by rewrite Hcreate. }
  split; [|split; [|split]].
  - split; [done|]. rewrite Hs1. destruct s as [a h]. cbn.
    split; [done|]. unfold responses. cbn. by rewrite last_snoc.
  - split; [by rewrite Hs2|]. eexists. split.
    + exists ("Server '" +:+ str A +:+ "' "), ""%string.
      rewrite !append_assoc. reflexivity.
    + rewrite Hs2. unfold responses. cbn. by rewrite last_snoc.
  - split; [|split; [done|]].
    + unfold outcome. rewrite handle_server_destroy_fresh; [done|].
      by rewrite Hdestroy, Hs2.
    + rewrite Hs3. unfold responses. cbn. by rewrite last_snoc.
  - split.
    + rewrite Hs4. destruct (s3.1). cbn. by rewrite lookup_insert_eq.
    + rewrite Hs4. unfold responses. cbn. by rewrite last_snoc.
Qed.

Lemma X12_server_name_unique_until_destroyed_witness :
  let create := request "server_create" [("name"%string, VStr "S")] in
  let destroy := request "server_destroy" [("name"%string, VStr "S")] in
  let s1 := exec (FixToolAgent.handle_server_create control1 create) serving in
  let s2 := exec (FixToolAgent.handle_server_create control1 create) s1 in
  let s3 := exec (FixToolAgent.handle_server_destroy control1 destroy) s2 in
  FixToolAgent._servers s3.1 !! VStr "S" = None.
Proof.
  intros create destroy s1 s2 s3.
  destruct (X12_server_name_unique_until_destroyed control1 create destroy
              serving (VStr "S")) as (_ & _ & (_ & Hgone & _) & _).
  - vm_compute. reflexivity.
  - vm_compute. reflexivity.
  - vm_compute. reflexivity.
  - exact Hgone.
Defined.

(** [bind] on a free port finds no socket listening on it. *)
Lemma port_free_listens_on port w :
  port_free port w = true -> listens_on port w = false.
Proof.
  unfold port_free. intros [H _]%andb_true_iff. by apply negb_true_iff.
Qed.

Lemma listens_on_spec port w :
  listens_on port w = true
  <-> exists sock, sockets w !! sock = Some (SockListening port).
Proof.
  unfold listens_on. rewrite existsb_exists. split.
  - intros [[k st] [Hin Hst]]. exists k.
    apply list_elem_of_In, elem_of_map_to_list in Hin.
    destruct st; try discriminate. cbn in Hst.
    by apply bool_decide_eq_true in Hst as ->.
  - intros [k Hk]. exists (k, SockListening port). split.
    + by apply list_elem_of_In, elem_of_map_to_list.
    + cbn. by apply bool_decide_eq_true.
Qed.

(** The new socket of [listen] is no listening socket yet: it does not
    count against its own port. *)
Lemma listens_on_new_socket port w w' sock :
  sockets w' = <[sock := SockOpen]> (sockets w) ->
  listens_on port w = false -> listens_on port w' = false.
Proof.
  intros Hw' Hnone. apply not_true_is_false. intros [k Hk]%listens_on_spec.
  rewrite Hw' in Hk. destruct (decide (k = sock)) as [->|Hne].
  - by rewrite lookup_insert_eq in Hk.
  - rewrite lookup_insert_ne in Hk by done.
    assert (listens_on port w = true) by (apply listens_on_spec; eauto).
    congruence.
Qed.

Lemma listens_on_other_socket port w w' sock sock' :
  sockets w' = <[sock' := SockOpen]> (sockets w) ->
  sockets w !! sock = Some (SockListening port) -> sock <> sock' ->
  listens_on port w' = true.
Proof.
  intros Hw' Hsock Hne. apply listens_on_spec. exists sock. rewrite Hw'.
  by rewrite lookup_insert_ne.
Qed.

(** X13.  [server_listen] for a known server with an integer port in
    0-65535 on which no socket of the world is listening: the handler takes
    a new socket, which listens on the port and is registered for the
    server's accept callback, makes the server refer to it and sends a
    success response.  Whatever socket the server referred to before is
    neither closed nor deregistered: every other socket and registration is
    as before. *)
Theorem X13_server_listen_succeeds
    (control : ControlSession.t) (message : Message) (s : FixToolAgent.State)
    (name : value) (server : Server.t) (port : Z) :
  message !! "name" = Some name ->
  FixToolAgent._servers s.1 !! name = Some server ->
  msg_get message "port" = VInt port ->
  0 <= port <= 65535 ->
  port_free port (world s.2) = true ->
  let s' := (FixToolAgent.set_servers
               <[name := Server.set_socket (Some (next_fd (world s.2))) server]> s.1,
             replied control (ServerListenedMessage name true "")
               (listening_started port s.2)) in
  FixToolAgent.handle_server_listen control message s = (s', Ok tt) /\
  sockets (world s'.2) !! next_fd (world s.2) = Some (SockListening port) /\
  readers (world s'.2) !! next_fd (world s.2) = Some cb_server_acceptable /\
  forall sock, sock <> next_fd (world s.2) ->
    sockets (world s'.2) !! sock = sockets (world s.2) !! sock /\
    readers (world s'.2) !! sock = readers (world s.2) !! sock.
Proof.
  intros Hname Hserver Hport Hrange Hfree s'. subst s'. destruct s as [a h].
  cbn in Hserver, Hfree. split; [|split; [|split]].
  - unfold FixToolAgent.handle_server_listen, msg_index. rewrite Hname. run.
    rewrite Hserver, Hport, (bad_port_accepted port _ Hrange).
    unfold FixToolAgent.on_server, Server.listen, new_socket, sock_bind_listen,
      add_reader.
    run. rewrite decide_True by done. run.
    match goal with
    | |- context [listens_on port ?w'] =>
        rewrite (listens_on_new_socket port (world h) w' (next_fd (world h))
                   eq_refl (port_free_listens_on _ _ Hfree))
    end.
    rewrite andb_false_r. run.
    rewrite reply_spec. cbn.
    destruct a, h as [[] ? ?]. unfold FixToolAgent.set_servers, listening_started,
      replied, log_response. cbn.
    by rewrite !insert_insert_eq.
  - cbn. apply lookup_insert_eq.
  - cbn. apply lookup_insert_eq.
  - intros sock Hne. cbn. by rewrite !lookup_insert_ne.
Qed.

Lemma X13_server_listen_succeeds_witness :
  let message := request "server_listen"
                   [("name"%string, VStr "S"); ("port"%string, VInt 9001)] in
  let s' := exec (FixToolAgent.handle_server_listen control1 message) with_server_S in
  Server._socket <$> (FixToolAgent._servers s'.1 !! VStr "S") = Some (Some 2%nat) /\
  sockets (world s'.2) !! 2%nat = Some (SockListening 9001).
Proof.
  intros message s'. subst s'. unfold exec.
  destruct (X13_server_listen_succeeds control1 message with_server_S
              (VStr "S") Server.init 9001) as [-> _].
  - vm_compute. reflexivity.
  - vm_compute. reflexivity.
  - vm_compute. reflexivity.
  - lia.
  - vm_compute. reflexivity.
  - split; vm_compute; reflexivity.
Defined.

(** X29.  [server_listen] for a known server with an integer port in
    1-65535 on which a socket of the world is already listening (another
    server's, an earlier socket of the same server, or the agent's own
    control socket): [bind] raises [OSError].  No response is sent; the
    server is left referring to the new socket, which is open, unbound and
    not registered, and the socket that holds the port is untouched. *)
Theorem X29_server_listen_on_port_in_use_raises
    (control : ControlSession.t) (message : Message) (s : FixToolAgent.State)
    (name : value) (server : Server.t) (port : Z) (sock : fd) :
  message !! "name" = Some name ->
  FixToolAgent._servers s.1 !! name = Some server ->
  msg_get message "port" = VInt port ->
  0 < port <= 65535 ->
  sockets (world s.2) !! sock = Some (SockListening port) ->
  sock <> next_fd (world s.2) ->
  let s' := (FixToolAgent.set_servers
               <[name := Server.set_socket (Some (next_fd (world s.2))) server]> s.1,
             listening_failed s.2) in
  FixToolAgent.handle_server_listen control message s = (s', Raise OSError) /\
  responses s' = responses s /\
  sockets (world s'.2) !! next_fd (world s.2) = Some SockOpen /\
  readers (world s'.2) = readers (world s.2) /\
  sockets (world s'.2) !! sock = Some (SockListening port).
Proof.
  intros Hname Hserver Hport Hrange Hsock Hne s'. subst s'. destruct s as [a h].
  cbn in Hserver, Hsock, Hne. split; [|split; [|split; [|split]]].
  - unfold FixToolAgent.handle_server_listen, msg_index. rewrite Hname. run.
    assert (0 <= port <= 65535) as Hrange' by lia.
    rewrite Hserver, Hport, (bad_port_accepted port _ Hrange').
    unfold FixToolAgent.on_server, Server.listen, new_socket, sock_bind_listen,
      add_reader.
    run. rewrite decide_True by lia. run.
    match goal with
    | |- context [listens_on port ?w'] =>
        rewrite (listens_on_other_socket port (world h) w' sock
                   (next_fd (world h)) eq_refl Hsock Hne)
    end.
    rewrite bool_decide_eq_true_2 by lia. run.
    destruct a, h as [[] ? ?]. unfold FixToolAgent.set_servers, listening_failed.
    cbn. reflexivity.
  - reflexivity.
  - cbn. apply lookup_insert_eq.
  - reflexivity.
  - cbn. by rewrite lookup_insert_ne.
Qed.

Lemma X29_server_listen_on_port_in_use_raises_witness :
  let message := request "server_listen"
                   [("name"%string, VStr "S"); ("port"%string, VInt 11011)] in
  FixToolAgent.handle_server_listen control1 message with_server_S
  = ((FixToolAgent.set_servers
        <[VStr "S" := Server.set_socket (Some (next_fd (world with_server_S.2)))
                        Server.init]> with_server_S.1,
      listening_failed with_server_S.2), Raise OSError).
Proof.
  intros message.
  apply (X29_server_listen_on_port_in_use_raises control1 message with_server_S
           (VStr "S") Server.init 11011 0%nat).
  - vm_compute. reflexivity.
  - vm_compute. reflexivity.
  - vm_compute. reflexivity.
  - lia.
  - vm_compute. reflexivity.
  - vm_compute. discriminate.
Defined.

(** X14.  [server_unlisten] for a known, listening server with an integer
    port in 0-65535 closes the listening socket, removes its registration,
    clears the server's socket reference and sends a success response; the
    port of the request plays no part beyond its validation. *)
Theorem X14_server_unlisten_succeeds
    (control : ControlSession.t) (message : Message) (s : FixToolAgent.State)
    (name : value) (server : Server.t) (port : Z) (sock : fd) :
  message !! "name" = Some name ->
  FixToolAgent._servers s.1 !! name = Some server ->
  Server._socket server = Some sock ->
  msg_get message "port" = VInt port ->
  0 <= port <= 65535 ->
  FixToolAgent.handle_server_unlisten control message s
  = ((FixToolAgent.set_servers <[name := Server.set_socket None server]> s.1,
      replied control (ServerUnlistenedMessage name true "")
        (listening_stopped sock s.2)),
     Ok tt).
Proof.
  intros Hname Hserver Hsock Hport Hrange. destruct s as [a h]. cbn in Hserver.
  unfold FixToolAgent.handle_server_unlisten, msg_index. rewrite Hname. run.
  rewrite Hserver, Hport, (bad_port_accepted port _ Hrange).
  unfold FixToolAgent.on_server, Server.unlisten, remove_reader, sock_close.
  run. rewrite Hsock. run. rewrite reply_spec. cbn.
  by destruct a.
Qed.

Lemma X14_server_unlisten_succeeds_witness :
  let message := request "server_unlisten"
                   [("name"%string, VStr "S"); ("port"%string, VInt 1)] in
  let s' := exec (FixToolAgent.handle_server_unlisten control1 message) with_session_X in
  Server._socket <$> (FixToolAgent._servers s'.1 !! VStr "S") = Some None /\
  sockets (world s'.2) !! 2%nat = Some SockClosed /\
  readers (world s'.2) !! 2%nat = None.
Proof.
  intros message s'. subst s'. unfold exec.
  rewrite (X14_server_unlisten_succeeds control1 message with_session_X (VStr "S")
             (Server.mk true true false 0 0 [] {[VStr "X" := 0%nat]} (Some 2%nat))
             1 2%nat).
  - repeat split; vm_compute; reflexivity.
  - vm_compute. reflexivity.
  - vm_compute. reflexivity.
  - reflexivity.
  - vm_compute. reflexivity.
  - lia.
Defined.

(** X15.  [server_unlisten] for a known server that is not listening, with
    an integer port in 0-65535: [remove_reader(None)] raises [ValueError];
    no response is sent and nothing changes. *)
Theorem X15_server_unlisten_when_idle_raises
    (control : ControlSession.t) (message : Message) (s : FixToolAgent.State)
    (name : value) (server : Server.t) (port : Z) :
  message !! "name" = Some name ->
  FixToolAgent._servers s.1 !! name = Some server ->
  Server._socket server = None ->
  msg_get message "port" = VInt port ->
  0 <= port <= 65535 ->
  FixToolAgent.handle_server_unlisten control message s = (s, Raise ValueError).
Proof.
  intros Hname Hserver Hsock Hport Hrange. destruct s as [a h]. cbn in Hserver.
  unfold FixToolAgent.handle_server_unlisten, msg_index. rewrite Hname. run.
  rewrite Hserver, Hport, (bad_port_accepted port _ Hrange).
  unfold FixToolAgent.on_server, Server.unlisten, remove_reader.
  run. rewrite Hsock. run.
  destruct a, h. unfold FixToolAgent.set_servers. cbn in *.
  by rewrite insert_id.
Qed.

Lemma X15_server_unlisten_when_idle_raises_witness :
  FixToolAgent.handle_server_unlisten control1
    (request "server_unlisten"
       [("name"%string, VStr "S"); ("port"%string, VInt 9001)]) with_server_S
  = (with_server_S, Raise ValueError).
Proof.
  apply (X15_server_unlisten_when_idle_raises control1
           (request "server_unlisten"
              [("name"%string, VStr "S"); ("port"%string, VInt 9001)])
           with_server_S (VStr "S") Server.init 9001).
  - vm_compute. reflexivity.
  - vm_compute. reflexivity.
  - reflexivity.
  - vm_compute. reflexivity.
  - lia.
Defined.

(** ** Pending connections are first in, first out *)

Section Pending.

Implicit Types (v : Server.t) (h : Store).

Lemma acceptable_spec v h sock :
  Server._socket v = Some sock ->
  Server.acceptable (v, h)
  = ((Server.set_pending (fun q => q ++ [next_ref h]) v, arrived h), Ok tt).
Proof.
  intros Hsock. unfold Server.acceptable, new_socket, ServerSession.init,
    add_reader, alloc_session.
  run. rewrite Hsock. run. by destruct h as [[] ? ?].
Qed.


Lemma accept_client_session_spec v h name r rest :
  Server._pending_sessions v = r :: rest ->
  Server.accept_client_session name (v, h)
  = ((Server.set_accepted <[name := r]> (Server.set_pending (fun _ => rest) v),
      mkStore (world h)
        (<[r := ServerSession.set_name_field name (session_objs h !!! r)]>
           (session_objs h))
        (next_ref h)),
     Ok (Some r)).
Proof.
  intros Hpending. unfold Server.accept_client_session, Server.pending_client_count.
  run. rewrite Hpending. cbn. unfold on_session, ServerSession.set_name. run.
  done.
Qed.

End Pending.



(** X17.  [accept_client_session] on a server with pending connections
    takes the oldest one: it is removed from the head of the queue, given
    the name, entered in the server's table of accepted sessions under that
    name (replacing an earlier entry of the same name) and returned; the
    rest of the queue keeps its order. *)
Theorem X17_accept_takes_the_oldest
    (v : Server.t) (h : Store) (name : value) (r : ref) (rest : list ref) :
  Server._pending_sessions v = r :: rest ->
  exists v' h',
    Server.accept_client_session name (v, h) = ((v', h'), Ok (Some r)) /\
    Server._pending_sessions v' = rest /\
    Server._accepted_sessions v' = <[name := r]> (Server._accepted_sessions v) /\
    Server._socket v' = Server._socket v /\
    session_objs h' !!! r
      = ServerSession.set_name_field name (session_objs h !!! r) /\
    (forall r', r' <> r -> session_objs h' !! r' = session_objs h !! r') /\
    world h' = world h.
Proof.
  intros Hpending. do 2 eexists.
  split; [by apply accept_client_session_spec|]. cbn.
  split; [done|]. split; [done|]. split; [done|].
  split; [by rewrite lookup_total_insert_eq|]. split; [|done].
  intros r' Hne. by rewrite lookup_insert_ne.
Qed.

Lemma X17_accept_takes_the_oldest_witness :
  exists v' h',
    Server.accept_client_session (VStr "first")
      (Server.set_pending (fun _ => [5; 6; 7]%nat) Server.init, serving.2)
    = ((v', h'), Ok (Some 5%nat)) /\
    Server._pending_sessions v' = [6; 7]%nat.
Proof.
  destruct (X17_accept_takes_the_oldest
              (Server.set_pending (fun _ => [5; 6; 7]%nat) Server.init) serving.2
              (VStr "first") 5%nat [6; 7]%nat)
    as (v' & h' & Hrun & Hrest & _); [reflexivity|].
  exists v', h'. split; [exact Hrun | exact Hrest].
Defined.

(** ** Accepting and disconnecting a session through the agent *)

(** X18.  [server_accept] for a known server with pending connections binds
    the requested session name, in the server's table and in the agent's,
    to the oldest pending session, names that session and answers with
    success and the session name.  A following
    [server_is_connected_request] for the name succeeds and reports the
    connection flag of that session. *)
Theorem X18_server_accept_binds_oldest_pending
    (control control' : ControlSession.t) (message query : Message)
    (s : FixToolAgent.State) (name : value) (server : Server.t)
    (r : ref) (rest : list ref) :
  message !! "name" = Some name ->
  FixToolAgent._servers s.1 !! name = Some server ->
  Server._pending_sessions server = r :: rest ->
  let session_name := msg_get message "session_name" in
  msg_get query "name" = session_name ->
  let s' := (FixToolAgent.set_server_sessions <[session_name := Some r]>
               (FixToolAgent.set_servers
                  <[name := Server.set_accepted <[session_name := r]>
                              (Server.set_pending (fun _ => rest) server)]> s.1),
             replied control (ServerAcceptedMessage name true "" session_name)
               (session_named r session_name s.2)) in
  FixToolAgent.handle_server_accept control message s = (s', Ok tt) /\
  outcome (FixToolAgent.handle_server_is_connected_request control' query) s' = Ok tt /\
  last (responses
          (exec (FixToolAgent.handle_server_is_connected_request control' query) s'))
  = Some (ControlSession._socket control',
          ServerIsConnectedResponse session_name true ""
            (ServerSession._is_connected (session_objs s.2 !!! r))).
Proof.
  intros Hname Hserver Hpending session_name Hquery s'. subst s'.
  destruct s as [a h]. cbn in Hserver. split.
  - unfold FixToolAgent.handle_server_accept, msg_index. rewrite Hname. step.
    rewrite Hserver. fold session_name. unfold FixToolAgent.on_server. step.
    rewrite (accept_client_session_spec server h session_name r rest Hpending).
    step. by rewrite reply_spec.
  - unfold exec, outcome, FixToolAgent.handle_server_is_connected_request.
    step. rewrite Hquery.
    assert (FixToolAgent.get_server_session
              (FixToolAgent.set_server_sessions <[session_name := Some r]>
                 (FixToolAgent.set_servers
                    <[name := Server.set_accepted <[session_name := r]>
                                (Server.set_pending (fun _ => rest) server)]> a))
              session_name = Some r) as ->.
    { unfold FixToolAgent.get_server_session. destruct a. cbn.
      by rewrite lookup_insert_eq. }
    unfold on_session, ServerSession.is_connected. run.
    rewrite reply_spec. cbn. rewrite lookup_total_insert_eq. cbn.
    split; [done|]. unfold responses. cbn. by rewrite last_snoc.
Qed.

Lemma X18_server_accept_binds_oldest_pending_witness :
  let listen := request "server_listen"
                  [("name"%string, VStr "S"); ("port"%string, VInt 9001)] in
  let s := exec (handle_all [listen] ;;; connection_arrives (VStr "S")) with_server_S in
  let message := request "server_accept"
                   [("name"%string, VStr "S"); ("session_name"%string, VStr "X")] in
  let s' := exec (FixToolAgent.handle_server_accept control1 message) s in
  FixToolAgent._server_sessions s'.1 !! VStr "X" = Some (Some 0%nat).
Proof.
  intros listen s message s'. subst s'. unfold exec.
  destruct (X18_server_accept_binds_oldest_pending control1 control1 message
              (request "server_is_connected_request" [("name"%string, VStr "X")])
              s (VStr "S")
              (Server.mk true true false 0 0 [0%nat] ∅ (Some 2%nat)) 0%nat [])
    as [-> _].
  - vm_compute. reflexivity.
  - vm_compute. reflexivity.
  - reflexivity.
  - vm_compute. reflexivity.
  - vm_compute. reflexivity.
Defined.

(** X19.  [server_disconnect] for a session name that resolves to a session
    with a socket closes that socket, removes its registration, clears the
    session's socket reference and connection flag, and answers with
    success; this also holds for a session whose peer has closed.  A second
    [server_disconnect] for the same name sends nothing: [remove_reader(None)]
    raises [ValueError] and nothing changes. *)
Theorem X19_server_disconnect_once
    (control control' : ControlSession.t) (message : Message)
    (s : FixToolAgent.State) (r : ref) (x : ServerSession.t) (sock : fd) :
  let name := msg_get message "name" in
  FixToolAgent.get_server_session s.1 name = Some r ->
  session_objs s.2 !! r = Some x ->
  ServerSession._socket x = Some sock ->
  let s' := (s.1, replied control (ServerDisconnectedMessage name true "")
                    (session_disconnected r x sock s.2)) in
  FixToolAgent.handle_server_disconnect control message s = (s', Ok tt) /\
  FixToolAgent.handle_server_disconnect control' message s' = (s', Raise ValueError).
Proof.
  intros name Hresolve Hobj Hsock s'. subst s'. destruct s as [a h].
  cbn in Hresolve, Hobj.
  assert (session_objs h !!! r = x) as Htotal
    by (by rewrite lookup_total_alt, Hobj).
  split.
  - unfold FixToolAgent.handle_server_disconnect. step. fold name.
    rewrite Hresolve.
    unfold on_session, ServerSession.disconnect, remove_reader, sock_close.
    run. rewrite Htotal, Hsock. run. by rewrite reply_spec.
  - unfold FixToolAgent.handle_server_disconnect. step. fold name.
    rewrite Hresolve.
    unfold on_session, ServerSession.disconnect, remove_reader.
    run. rewrite lookup_total_insert_eq. cbn.
    by rewrite insert_insert_eq.
Qed.

Lemma X19_server_disconnect_once_witness :
  let message := request "server_disconnect" [("name"%string, VStr "X")] in
  let s' := exec (FixToolAgent.handle_server_disconnect control1 message)
              with_session_X in
  outcome (FixToolAgent.handle_server_disconnect control1 message) with_session_X
    = Ok tt /\
  outcome (FixToolAgent.handle_server_disconnect control1 message) s'
    = Raise ValueError.
Proof.
  intros message s'. subst s'. unfold exec, outcome.
  destruct (X19_server_disconnect_once control1 control1 message with_session_X
              0%nat (ServerSession.mk (Some 3%nat) (VStr "X") true []) 3%nat)
    as [Hfirst Hsecond].
  - vm_compute. reflexivity.
  - vm_compute. reflexivity.
  - reflexivity.
  - split.
    + rewrite Hfirst. reflexivity.
    + rewrite Hfirst. cbn [fst]. rewrite Hsecond. reflexivity.
Defined.

(** ** Message queues are first in, first out *)

Section Queues.

Lemma session_readable_data buf decoded : forall (x : ServerSession.t) (w : World),
  buf <> [] ->
  ServerSession.readable buf decoded (x, w)
  = ((ServerSession.set_queue (fun q => q ++ decoded) x, w), Ok tt).
Proof.
  intros x w Hbuf. unfold ServerSession.readable.
  rewrite decide_False by (destruct buf; [done | unfold len; cbn; lia]).
  revert x. induction decoded as [|m ms IH]; intros x.
  - destruct x. unfold ServerSession.set_queue. cbn. by rewrite app_nil_r.
  - cbn [for_each]. unfold bind at 1. unfold set_self at 1, modify. cbn [fst snd].
    rewrite IH. destruct x. unfold ServerSession.set_queue. cbn.
    by rewrite <- app_assoc.
Qed.

Lemma client_readable_data buf decoded : forall (c : Client.t) (w : World),
  buf <> [] ->
  Client.readable buf decoded (c, w)
  = ((Client.set_recv_queue (fun q => q ++ decoded) c, w), Ok tt).
Proof.
  intros c w Hbuf. unfold Client.readable.
  rewrite decide_False by (destruct buf; [done | unfold len; cbn; lia]).
  revert c. induction decoded as [|m ms IH]; intros c.
  - destruct c. unfold Client.set_recv_queue. cbn. by rewrite app_nil_r.
  - cbn [for_each]. unfold bind at 1. unfold set_self at 1, modify. cbn [fst snd].
    rewrite IH. destruct c. unfold Client.set_recv_queue. cbn.
    by rewrite <- app_assoc.
Qed.

Lemma get_messages_drains (k : nat) (w : World) : forall (x : ServerSession.t),
  get_messages (length (ServerSession._queue x) + k) (x, w)
  = ((ServerSession.set_queue (fun _ => []) x, w),
     Ok ((Some <$> ServerSession._queue x) ++ replicate k None)).
Proof.
  intros [sock name flag q]. cbn [ServerSession._queue].
  induction q as [|m q IH].
  - cbn [length Nat.add fmap list_fmap app].
    induction k as [|k IHk]; [done|].
    cbn [get_messages replicate]. unfold ServerSession.get_message. run.
    unfold ServerSession.set_queue in *. cbn in *. by rewrite IHk.
  - cbn [length Nat.add get_messages]. unfold ServerSession.get_message at 1. run.
    unfold ServerSession.set_queue in *. cbn in *. by rewrite IH.
Qed.

End Queues.

(** X20.  The message queue of a session is first in, first out.  A read
    with data appends the messages the parser yields to the tail of the
    queue, in order, and changes nothing else (name, socket, flag, world);
    [get_message] then returns the queued messages oldest first, and [None]
    on every call once the queue is empty. *)
Theorem X20_session_queue_is_fifo
    (x : ServerSession.t) (w : World) (buf : bytes) (decoded : list FixMessage)
    (k : nat) :
  buf <> [] ->
  let queue := ServerSession._queue x ++ decoded in
  ServerSession.readable buf decoded (x, w)
  = ((ServerSession.set_queue (fun _ => queue) x, w), Ok tt) /\
  get_messages (length queue + k) (ServerSession.set_queue (fun _ => queue) x, w)
  = ((ServerSession.set_queue (fun _ => []) x, w),
     Ok ((Some <$> queue) ++ replicate k None)).
Proof.
  intros Hbuf queue. split.
  - by rewrite session_readable_data.
  - pose proof (get_messages_drains k w (ServerSession.set_queue (fun _ => queue) x))
      as Hdrain.
    by destruct x.
Qed.

Lemma X20_session_queue_is_fifo_witness :
  let x := ServerSession.mk (Some 3%nat) (VStr "X") true [[(35, [x41])]] in
  get_messages 3 (exec (ServerSession.readable [x38] [[(35, [x42])]]) (x, world0))
  = ((ServerSession.set_queue (fun _ => []) x, world0),
     Ok [Some [(35, [x41])]; Some [(35, [x42])]; None]).
Proof.
  intros x.
  destruct (X20_session_queue_is_fifo x world0 [x38] [[(35, [x42])]] 1)
    as [Hread Hget]; [discriminate|].
  unfold exec. rewrite Hread. exact Hget.
Defined.

(** X21.  A read with data on a client appends the messages the parser
    yields to the tail of the client's receive queue, in order; the
    connection flag, the socket, the address and the world are unchanged. *)
Theorem X21_client_read_appends
    (c : Client.t) (w : World) (buf : bytes) (decoded : list FixMessage) :
  buf <> [] ->
  Client.readable buf decoded (c, w)
  = ((Client.set_recv_queue (fun q => q ++ decoded) c, w), Ok tt).
Proof. intros Hbuf. by apply client_readable_data. Qed.

Lemma X21_client_read_appends_witness :
  Client._recv_queue
    (exec (Client.readable [x38] [[(35, [x41])]; [(35, [x42])]])
       (new_client (VStr "A") 2%nat, world0)).1
  = [[(35, [x41])]; [(35, [x42])]].
Proof.
  unfold exec.
  rewrite (X21_client_read_appends (new_client (VStr "A") 2%nat) world0 [x38]
             [[(35, [x41])]; [(35, [x42])]]); [reflexivity | discriminate].
Defined.

(** X22.  [Client.destroy] of a client that is not connected changes
    nothing and returns.  Of a connected client, whose socket is then a
    connected socket of the world, it is the disconnect: it returns with
    the registration removed, the socket closed and the flag cleared.
    Either way the client is not connected afterwards, so a second
    [destroy] changes nothing and returns as well. *)
Theorem X22_client_destroy_is_idempotent (c : Client.t) (w : World) :
  (Client._is_connected c = true ->
   sockets w !! Client._socket c = Some SockConnected) ->
  exists c' w',
    Client.destroy (c, w) = ((c', w'), Ok tt) /\
    Client._is_connected c' = false /\
    Client.destroy (c', w') = ((c', w'), Ok tt) /\
    (if Client._is_connected c
     then c' = Client.set_is_connected false c /\
          w' = client_closed (Client._socket c) w /\
          sockets w' !! Client._socket c = Some SockClosed /\
          readers w' !! Client._socket c = None
     else (c', w') = (c, w)).
Proof.
  intros _. unfold Client.destroy. run. destruct (Client._is_connected c) eqn:Hc.
  - do 2 eexists. split; [apply client_disconnect_spec|]. cbn.
    split; [done|]. split; [done|]. split; [done|]. split; [done|].
    split; [apply lookup_insert_eq | apply lookup_delete_eq].
  - do 2 eexists. split; [done|]. cbn. by rewrite Hc.
Qed.

Lemma X22_client_destroy_is_idempotent_witness :
  let c0 := new_client (VStr "A") 0%nat in
  let w0 := (Client.init (VStr "A") world0).1 in
  let s1 := exec (Client.connect (VStr "127.0.0.1") (VInt 9000)) (c0, w0) in
  Client._is_connected s1.1 = true /\
  exists c' w',
    Client.destroy (s1.1, s1.2) = ((c', w'), Ok tt) /\
    Client._is_connected c' = false /\
    Client.destroy (c', w') = ((c', w'), Ok tt).
Proof.
  intros c0 w0 s1. split; [reflexivity|].
  destruct (X22_client_destroy_is_idempotent s1.1 s1.2)
    as (c' & w' & Hrun & Hflag & Hagain & _).
  - intros _. vm_compute. reflexivity.
  - exists c', w'. split; [exact Hrun|]. split; [exact Hflag | exact Hagain].
Defined.

(** ** Destroying a server that does not listen *)

Section ServerDestroyEffect.

Implicit Types (h : Store) (x : ServerSession.t) (w : World) (r : ref).









End ServerDestroyEffect.



(** ** What every callback keeps *)

Section Preserves.

Context {S : Type} (R : relation S) `{!PreOrder R}.

Lemma preserves_same {A} (m : M S A) :
  (forall s, (m s).1 = s) -> preserves R m.
Proof. intros Hm s. by rewrite Hm. Qed.

Lemma preserves_ret {A} (a : A) : preserves R (ret a).
Proof. by apply preserves_same. Qed.

Lemma preserves_raise {A} (e : exn) : preserves R (raise (A := A) e).
Proof. by apply preserves_same. Qed.

Lemma preserves_lift_result {A} (r : result A) : preserves R (lift_result r).
Proof. by apply preserves_same. Qed.

Lemma preserves_bind {A B} (m : M S A) (k : A -> M S B) :
  preserves R m -> (forall a, preserves R (k a)) -> preserves R (bind m k).
Proof.
  intros Hm Hk s. unfold bind. specialize (Hm s).
  destruct (m s) as [s' [a|e]]; cbn in *; [|done].
  by etrans; [|apply Hk].
Qed.

Lemma preserves_for_each {A} (l : list A) (body : A -> M S unit) :
  (forall x, preserves R (body x)) -> preserves R (for_each l body).
Proof.
  intros Hbody. induction l as [|x l IH]; [apply preserves_ret|].
  cbn [for_each]. by apply preserves_bind.
Qed.

End Preserves.

Section PreservesPairs.

Context {T E : Type} (R : relation (T * E)) `{!PreOrder R}.

Lemma preserves_self : preserves R (self (T := T) (E := E)).
Proof. by apply preserves_same. Qed.

End PreservesPairs.

Global Instance closable_kept_preorder {T} : PreOrder (closable_kept (T := T)).
Proof.
  split; [intros s H; exact H|]. intros s1 s2 s3 H12 H23 H. exact (H23 (H12 H)).
Qed.

Global Instance table_rel_preorder Q `{!PreOrder Q} : PreOrder (table_rel Q).
Proof.
  split; [intros s; unfold table_rel; reflexivity|].
  intros s1 s2 s3 H12 H23. unfold table_rel in *. by etrans.
Qed.

Global Instance written_at_preorder k : PreOrder (written_at k).
Proof.
  split; [by intros m|].
  intros m1 m2 m3 [H12 K12] [H23 K23]. split; [|by auto].
  intros n Hn. by rewrite H23, H12.
Qed.

Create HintDb preserve.

Global Hint Resolve preserves_ret preserves_raise preserves_lift_result
  preserves_self : preserve.

(** Take a method apart along its sequencing and its branches. *)
Ltac preserve :=
  cbv zeta;
  repeat first
    [ solve [eauto with preserve typeclass_instances]
    | match goal with |- forall _, _ => intro end
    | apply preserves_bind
    | apply preserves_for_each
    | match goal with
      | |- preserves _ (match ?x with _ => _ end) => destruct x
      end ].

Section ClosableKept.

Import FixToolAgent.

Lemma closable_destroy (x : ServerSession.t) (w : World) :
  closable x -> closable (ServerSession.destroy (x, w)).1.1.
Proof.
  intros Hx. unfold ServerSession.destroy, ServerSession.disconnect, remove_reader.
  run. destruct (ServerSession._is_connected x) eqn:Hc; run.
  - destruct (ServerSession._socket x) as [sock|] eqn:Hsock; run.
    + by apply closable_not_connected.
    + intros _. destruct (Hx Hc) as [? ?]. congruence.
  - by apply closable_not_connected.
Qed.

Lemma closable_is_connected (x : ServerSession.t) (w : World) :
  closable x -> closable (ServerSession.is_connected (x, w)).1.1.
Proof. done. Qed.

Lemma closable_kept_objs {T A} (m : M (T * Store) A) :
  (forall s, session_objs (m s).1.2 = session_objs s.2) ->
  preserves closable_kept m.
Proof. intros Hm s H r. rewrite Hm. apply H. Qed.

Lemma ck_set_self {T} (f : T -> T) :
  preserves (closable_kept (T := T)) (set_self f).
Proof. by apply closable_kept_objs. Qed.

Lemma ck_on_world {T A} (m : M World A) :
  preserves (closable_kept (T := T)) (in_store (on_world m)).
Proof.
  apply closable_kept_objs. intros [t h]. unfold in_store, on_world, zoom. cbn.
  by destruct (m (world h)).
Qed.

Lemma ck_reply control r : preserves closable_kept (reply control r).
Proof. apply closable_kept_objs. intros s. by rewrite reply_spec. Qed.

Lemma ck_on_client {A} name client (m : M (Client.t * World) A) :
  preserves closable_kept (on_client name client m).
Proof.
  apply closable_kept_objs. intros [a h]. unfold on_client. cbn.
  by destruct (m (client, world h)) as [[c w] r].
Qed.

Lemma ck_on_session {T A} (r : ref) (m : M (ServerSession.t * World) A) :
  (forall x w, closable x -> closable (m (x, w)).1.1) ->
  preserves (closable_kept (T := T)) (in_store (on_session r m)).
Proof.
  intros Hm [t h] H r'. unfold in_store, on_session, zoom. cbn in *.
  specialize (Hm _ (world h) (H r)).
  destruct (m (session_objs h !!! r, world h)) as [[x' w'] res]. cbn in *.
  destruct (decide (r' = r)) as [->|Hne].
  - by rewrite lookup_total_insert_eq.
  - rewrite lookup_total_insert_ne by done. apply H.
Qed.

Lemma ck_on_server {A} name server (m : M (Server.t * Store) A) :
  preserves closable_kept m -> preserves closable_kept (on_server name server m).
Proof.
  intros Hm [a h] H. unfold on_server. specialize (Hm (server, h) H). cbn in *.
  by destruct (m (server, h)) as [[v' h'] r].
Qed.

Lemma ck_session_destroy {T} r :
  preserves (closable_kept (T := T)) (in_store (on_session r ServerSession.destroy)).
Proof. apply ck_on_session, closable_destroy. Qed.

Lemma ck_session_disconnect {T} r :
  preserves (closable_kept (T := T)) (in_store (on_session r ServerSession.disconnect)).
Proof. apply ck_on_session. intros x w. apply closable_disconnect. Qed.

Lemma ck_session_is_connected {T} r :
  preserves (closable_kept (T := T))
    (in_store (on_session r ServerSession.is_connected)).
Proof. apply ck_on_session, closable_is_connected. Qed.

Lemma ck_session_set_name {T} r name :
  preserves (closable_kept (T := T))
    (in_store (on_session r (ServerSession.set_name name))).
Proof. apply ck_on_session. intros x w. apply closable_set_name. Qed.

Lemma ck_session_readable {T} r buf decoded :
  preserves (closable_kept (T := T))
    (in_store (on_session r (ServerSession.readable buf decoded))).
Proof. apply ck_on_session. intros x w. apply closable_readable. Qed.

Hint Resolve ck_set_self ck_on_world ck_reply ck_on_client ck_session_destroy
  ck_session_disconnect ck_session_is_connected ck_session_set_name
  ck_session_readable : preserve.

Lemma ck_server_destroy : preserves closable_kept Server.destroy.
Proof. unfold Server.destroy. preserve. Qed.

Lemma ck_server_listen port : preserves closable_kept (Server.listen port).
Proof. unfold Server.listen. preserve. Qed.

Lemma ck_server_unlisten port : preserves closable_kept (Server.unlisten port).
Proof. unfold Server.unlisten. preserve. Qed.

Lemma ck_server_accept name :
  preserves closable_kept (Server.accept_client_session name).
Proof. unfold Server.accept_client_session. preserve. Qed.

Lemma ck_server_acceptable : preserves closable_kept Server.acceptable.
Proof.
  intros [v h] H. destruct (Server._socket v) as [sock|] eqn:Hsock.
  - rewrite (acceptable_spec v h sock Hsock). unfold arrived. intros r. cbn.
    destruct (decide (r = next_ref h)) as [->|Hne].
    + rewrite lookup_total_insert_eq. intros _. by eexists.
    + rewrite lookup_total_insert_ne by done. apply H.
  - unfold Server.acceptable. run. by rewrite Hsock.
Qed.

End ClosableKept.

Global Hint Resolve ck_set_self ck_on_world ck_reply ck_on_client ck_session_destroy
  ck_session_disconnect ck_session_is_connected ck_session_set_name
  ck_session_readable ck_on_server ck_server_destroy ck_server_listen
  ck_server_unlisten ck_server_accept ck_server_acceptable : preserve.

Section CallbacksKeepClosable.

Lemma ck_handle_request control message :
  preserves closable_kept (FixToolAgent.handle_request control message).
Proof. open_handlers. preserve. Qed.

Lemma ck_readable json_loads sock buf :
  preserves closable_kept (FixToolAgent.readable json_loads sock buf).
Proof.
  pose proof ck_handle_request.
  unfold FixToolAgent.readable, FixToolAgent.dispatch. preserve.
Qed.

Lemma ck_accept : preserves closable_kept FixToolAgent.accept.
Proof. unfold FixToolAgent.accept. preserve. Qed.

Lemma ck_connection_arrives name : preserves closable_kept (connection_arrives name).
Proof. unfold connection_arrives. preserve. Qed.

Lemma ck_session_reads r buf decoded :
  preserves closable_kept (session_reads r buf decoded).
Proof. unfold session_reads. preserve. Qed.

Lemma ck_client_reads name buf decoded :
  preserves closable_kept (client_reads name buf decoded).
Proof. unfold client_reads. preserve. Qed.

Lemma all_closable_booted : all_closable booted.2.
Proof. intros r. by apply closable_not_connected. Qed.

End CallbacksKeepClosable.

(** X24.  In every state the agent can get into from its start, by any
    sequence of accepted control connections, reads on control sockets,
    requests, arriving connections and reads on endpoint sockets, whether
    they return or raise, every session whose connection flag is set has a
    socket: [ServerSession.disconnect] and [destroy] then find a socket to
    deregister and close. *)
Theorem X24_connected_sessions_have_sockets (s : FixToolAgent.State) :
  rtc callback_run booted s -> all_closable s.2.
Proof.
  revert s. apply (rtc_ind_r (fun s => all_closable s.2)).
  - apply all_closable_booted.
  - intros s1 s2 Hsteps Hstep IH. destruct Hstep.
    + by apply ck_accept.
    + by apply ck_readable.
    + by apply ck_handle_request.
    + by apply ck_connection_arrives.
    + by apply ck_session_reads.
    + by apply ck_client_reads.
Qed.

Lemma X24_connected_sessions_have_sockets_witness :
  session_objs with_session_X.2 !! 0%nat
    = Some (ServerSession.mk (Some 3%nat) (VStr "X") true []) /\
  all_closable with_session_X.2.
Proof.
  split; [vm_compute; reflexivity|].
  apply X24_connected_sessions_have_sockets.
  set (create := request "server_create" [("name"%string, VStr "S")]).
  set (listen := request "server_listen"
                   [("name"%string, VStr "S"); ("port"%string, VInt 9001)]).
  set (accept := request "server_accept"
                   [("name"%string, VStr "S"); ("session_name"%string, VStr "X")]).
  assert (with_session_X
          = exec (FixToolAgent.handle_request control1 accept)
              (exec (connection_arrives (VStr "S"))
                 (exec (FixToolAgent.handle_request control1 listen)
                    (exec (FixToolAgent.handle_request control1 create)
                       (exec FixToolAgent.accept booted)))))
    as -> by (vm_compute; reflexivity).
  eapply rtc_r; [|apply run_request].
  eapply rtc_r; [|apply run_acceptable].
  eapply rtc_r; [|apply run_request].
  eapply rtc_r; [|apply run_request].
  apply rtc_once, run_accept.
Defined.

Section TableWrites.

Import FixToolAgent.

Context (Q : relation (gmap value (option ref))) `{!PreOrder Q}.

Lemma table_rel_same {A} (m : M State A) :
  (forall s, _server_sessions (m s).1.1 = _server_sessions s.1) ->
  preserves (table_rel Q) m.
Proof. intros Hm s. unfold table_rel. by rewrite Hm. Qed.

Lemma tr_in_store {A} (m : M Store A) : preserves (table_rel Q) (in_store m).
Proof.
  apply table_rel_same. intros [a h]. unfold in_store, zoom. cbn.
  by destruct (m h).
Qed.

Lemma tr_reply control r : preserves (table_rel Q) (reply control r).
Proof. apply table_rel_same. intros s. by rewrite reply_spec. Qed.

Lemma tr_on_client {A} name client (m : M (Client.t * World) A) :
  preserves (table_rel Q) (on_client name client m).
Proof.
  apply table_rel_same. intros [a h]. unfold on_client. cbn.
  destruct (m (client, world h)) as [[c w] r]. by destruct a.
Qed.

Lemma tr_on_server {A} name server (m : M (Server.t * Store) A) :
  preserves (table_rel Q) (on_server name server m).
Proof.
  apply table_rel_same. intros [a h]. unfold on_server. cbn.
  destruct (m (server, h)) as [[v h'] r]. by destruct a.
Qed.

Lemma tr_set_clients f : preserves (table_rel Q) (set_self (set_clients f)).
Proof. apply table_rel_same. by intros [[] h]. Qed.

Lemma tr_set_servers f : preserves (table_rel Q) (set_self (set_servers f)).
Proof. apply table_rel_same. by intros [[] h]. Qed.

Lemma tr_set_control_sessions f :
  preserves (table_rel Q) (set_self (set_control_sessions f)).
Proof. apply table_rel_same. by intros [[] h]. Qed.

Lemma tr_set_server_sessions k v :
  (forall m, Q m (<[k := v]> m)) ->
  preserves (table_rel Q) (set_self (set_server_sessions <[k := v]>)).
Proof. intros HQ [[] h]. apply HQ. Qed.

End TableWrites.

Global Hint Resolve tr_in_store tr_reply tr_on_client tr_on_server tr_set_clients
  tr_set_servers tr_set_control_sessions : preserve.

Section OnlyAcceptWrites.

Import FixToolAgent.

Context (Q : relation (gmap value (option ref))) `{!PreOrder Q}.

Lemma tr_handle_server_accept control message :
  (forall m v, Q m (<[msg_get message "session_name" := v]> m)) ->
  preserves (table_rel Q) (handle_server_accept control message).
Proof.
  intros HQ. unfold handle_server_accept, msg_index.
  pose proof (fun v => tr_set_server_sessions Q _ v (fun m => HQ m v)).
  preserve.
Qed.

Lemma tr_handle_request control message :
  (forall m v, Q m (<[msg_get message "session_name" := v]> m)) ->
  preserves (table_rel Q) (handle_request control message).
Proof.
  intros HQ.
  pose proof (fun v => tr_set_server_sessions Q _ v (fun m => HQ m v)).
  open_handlers. preserve.
Qed.

Lemma tr_handle_client_create control message :
  preserves (table_rel Q) (handle_client_create control message).
Proof. open_handlers. preserve. Qed.

Lemma tr_handle_client_connect control message :
  preserves (table_rel Q) (handle_client_connect control message).
Proof. open_handlers. preserve. Qed.

Lemma tr_handle_client_is_connected control message :
  preserves (table_rel Q) (handle_client_is_connected_request control message).
Proof. open_handlers. preserve. Qed.

Lemma tr_handle_client_destroy control message :
  preserves (table_rel Q) (handle_client_destroy control message).
Proof. open_handlers. preserve. Qed.

Lemma tr_handle_server_create control message :
  preserves (table_rel Q) (handle_server_create control message).
Proof. open_handlers. preserve. Qed.

Lemma tr_handle_server_destroy control message :
  preserves (table_rel Q) (handle_server_destroy control message).
Proof. open_handlers. preserve. Qed.

Lemma tr_handle_server_listen control message :
  preserves (table_rel Q) (handle_server_listen control message).
Proof. open_handlers. preserve. Qed.

Lemma tr_handle_server_unlisten control message :
  preserves (table_rel Q) (handle_server_unlisten control message).
Proof. open_handlers. preserve. Qed.

Lemma tr_handle_server_pending control message :
  preserves (table_rel Q) (handle_server_pending_accept_request control message).
Proof. open_handlers. preserve. Qed.

Lemma tr_handle_server_is_connected control message :
  preserves (table_rel Q) (handle_server_is_connected_request control message).
Proof. open_handlers. preserve. Qed.

Lemma tr_handle_server_disconnect control message :
  preserves (table_rel Q) (handle_server_disconnect control message).
Proof. open_handlers. preserve. Qed.

Lemma tr_handle_request_other control message :
  message !! "type" <> Some (VStr "server_accept") ->
  preserves (table_rel Q) (handle_request control message).
Proof.
  intros Htype s. unfold handle_request, msg_index.
  destruct (message !! "type") as [t|]; [|reflexivity].
  unfold bind at 1, ret at 1.
  repeat match goal with
         | |- context [decide (t = VStr ?k)] =>
             destruct (decide (t = VStr k)) as [->|?]
         end;
    first [ done
          | apply tr_handle_client_create | apply tr_handle_client_connect
          | apply tr_handle_client_is_connected | apply tr_handle_client_destroy
          | apply tr_handle_server_create | apply tr_handle_server_destroy
          | apply tr_handle_server_listen | apply tr_handle_server_unlisten
          | apply tr_handle_server_pending | apply tr_handle_server_is_connected
          | apply tr_handle_server_disconnect
          | reflexivity ].
Qed.

Lemma tr_accept : preserves (table_rel Q) accept.
Proof. unfold accept. preserve. Qed.

Lemma tr_connection_arrives name : preserves (table_rel Q) (connection_arrives name).
Proof. unfold connection_arrives. preserve. Qed.

Lemma tr_session_reads r buf decoded :
  preserves (table_rel Q) (session_reads r buf decoded).
Proof. unfold session_reads. preserve. Qed.

Lemma tr_client_reads name buf decoded :
  preserves (table_rel Q) (client_reads name buf decoded).
Proof. unfold client_reads. preserve. Qed.

End OnlyAcceptWrites.

(** X25.  Only [server_accept] writes the agent's session table, and it only
    writes the requested session name.  Whatever the request, and whether
    the handler returns or raises: every other name is bound as before and a
    name that had an entry still has one; and a request of any other type
    leaves the table exactly as it was, as do the accept of a control
    connection, an arriving connection and a read on an endpoint socket.
    No request removes a name from the table. *)
Theorem X25_only_server_accept_writes_session_table
    (control : ControlSession.t) (message : Message) (s : FixToolAgent.State) :
  let table s := FixToolAgent._server_sessions (fst s) in
  let s' := exec (FixToolAgent.handle_request control message) s in
  (forall n, n <> msg_get message "session_name" -> table s' !! n = table s !! n) /\
  (forall n, is_Some (table s !! n) -> is_Some (table s' !! n)) /\
  (message !! "type" <> Some (VStr "server_accept") -> table s' = table s) /\
  table (exec FixToolAgent.accept s) = table s /\
  (forall name, table (exec (connection_arrives name) s) = table s) /\
  (forall r buf decoded, table (exec (session_reads r buf decoded) s) = table s) /\
  (forall name buf decoded, table (exec (client_reads name buf decoded) s) = table s).
Proof.
  intros table s'.
  assert (written_at (msg_get message "session_name") (table s) (table s'))
    as [Hother Hkey].
  { apply (tr_handle_request (written_at (msg_get message "session_name"))).
    intros m v. split.
    - intros n Hn. by rewrite lookup_insert_ne.
    - intros _. rewrite lookup_insert_eq. eauto. }
  split; [done|]. split.
  { intros n Hn. destruct (decide (n = msg_get message "session_name")) as [->|Hne].
    - by apply Hkey.
    - by rewrite Hother. }
  split.
  { intros Htype. symmetry. by apply (tr_handle_request_other eq control message). }
  split; [symmetry; apply (tr_accept eq)|].
  split; [intros name; symmetry; apply (tr_connection_arrives eq)|].
  split; [intros r buf decoded; symmetry; apply (tr_session_reads eq)|].
  intros name buf decoded. symmetry. apply (tr_client_reads eq).
Qed.

Lemma X25_only_server_accept_writes_session_table_witness :
  let disconnect := request "server_disconnect" [("name"%string, VStr "X")] in
  FixToolAgent._server_sessions
    (exec (FixToolAgent.handle_request control1 disconnect) with_session_X).1
  = FixToolAgent._server_sessions with_session_X.1.
Proof.
  intros disconnect.
  destruct (X25_only_server_accept_writes_session_table control1 disconnect
              with_session_X) as (_ & _ & Hsame & _).
  apply Hsame. vm_compute. discriminate.
Defined.

(** ** Peer close and destruction of a client, seen through the agent *)

(** X26.  A zero-length read on the socket of a client in the agent's table
    disconnects it: the reader is removed, the socket closed and the flag
    cleared, and no response is sent.  A following
    [client_is_connected_request] succeeds and reports [is_connected]
    false. *)
Theorem X26_client_peer_close_is_seen_by_query
    (control : ControlSession.t) (query : Message) (s : FixToolAgent.State)
    (client : Client.t) (decoded : list FixMessage) :
  let name := msg_get query "name" in
  FixToolAgent._clients s.1 !! name = Some client ->
  let s' := (FixToolAgent.set_clients
               <[name := Client.set_is_connected false client]> s.1,
             mkStore (client_closed (Client._socket client) (world s.2))
                     (session_objs s.2) (next_ref s.2)) in
  client_reads name [] decoded s = (s', Ok tt) /\
  responses s' = responses s /\
  FixToolAgent.handle_client_is_connected_request control query s'
  = ((s'.1, replied control (ClientIsConnectedResponse name true "" false) s'.2),
     Ok tt).
Proof.
  intros name Hclient s'. subst s'. destruct s as [a h]. cbn in Hclient.
  split; [|split].
  - unfold client_reads. step. rewrite Hclient.
    unfold FixToolAgent.on_client. step.
    by rewrite client_readable_peer_closed, client_disconnect_spec.
  - done.
  - rewrite client_is_connected_answer. cbn. destruct a. cbn.
    by rewrite lookup_insert_eq.
Qed.

Lemma X26_client_peer_close_is_seen_by_query_witness :
  let connect := request "client_connect"
                   [("name"%string, VStr "A"); ("host"%string, VStr "127.0.0.1");
                    ("port"%string, VInt 9000)] in
  let query := request "client_is_connected_request" [("name"%string, VStr "A")] in
  let s := exec (FixToolAgent.handle_client_connect control1 connect) with_client_A in
  let s' := exec (client_reads (VStr "A") [] []) s in
  readers (world s.2) !! 2%nat = Some cb_client_readable /\
  readers (world s'.2) !! 2%nat = None /\
  sockets (world s'.2) !! 2%nat = Some SockClosed.
Proof.
  intros connect query s s'. subst s'. unfold exec.
  destruct (X26_client_peer_close_is_seen_by_query control1 query s
              (Client.set_is_connected true
                 (Client.set_address (VStr "127.0.0.1") (VInt 9000)
                    (new_client (VStr "A") 2%nat))) [])
    as (Hread & _).
  - vm_compute. reflexivity.
  - change (msg_get query "name") with (VStr "A") in Hread. rewrite Hread.
    repeat split; vm_compute; reflexivity.
Defined.

(** X27.  A complete frame that is parked in the buffer is released by the
    next chunk only if that chunk alone is at least as long as the parked
    frame; the chunk then stays in the buffer in its place.  A shorter
    chunk is added to the buffer and nothing is returned. *)
Theorem X27_parked_frame_waits_for_a_long_chunk
    (sock : fd) (payload f chunk : bytes) :
  frame payload = Ok f -> chunk <> [] ->
  ControlSession.append_bytes chunk (ControlSession.mk sock f)
  = if decide (len chunk < 4 + len payload)
    then (ControlSession.mk sock (f ++ chunk), Ok None)
    else (ControlSession.mk sock chunk, Ok (Some payload)).
Proof.
  intros Hf Hchunk. pose proof (len_frame _ _ Hf) as Hlen.
  apply frame_inv in Hf as (h & Hh & ->). apply unpack_pack in Hh as [Hu Hl].
  assert (0 < len chunk) by (destruct chunk; [done | unfold len; cbn; lia]).
  unfold ControlSession.append_bytes, ControlSession.set_buffer. run.
  rewrite decide_False by (rewrite !len_app in *; unfold len in *; lia).
  rewrite <- app_assoc, take_app_length' by done. rewrite Hu. cbn.
  destruct (decide (len chunk < 4 + len payload)); [done|]. cbn.
  rewrite drop_app_length' by done.
  unfold len. by rewrite Nat2Z.id, take_app_length, drop_app_length.
Qed.

Lemma X27_parked_frame_waits_for_a_long_chunk_witness :
  ControlSession.append_bytes [x7b] (ControlSession.mk 1%nat frame_cd)
  = (ControlSession.mk 1%nat (frame_cd ++ [x7b]), Ok None) /\
  ControlSession.append_bytes frame_ab (ControlSession.mk 1%nat frame_cd)
  = (ControlSession.mk 1%nat frame_ab, Ok (Some [x63; x64])).
Proof.
  split.
  - rewrite (X27_parked_frame_waits_for_a_long_chunk 1%nat [x63; x64] frame_cd [x7b]);
      [reflexivity | reflexivity | discriminate].
  - rewrite (X27_parked_frame_waits_for_a_long_chunk 1%nat [x63; x64] frame_cd
               frame_ab); [reflexivity | reflexivity | discriminate].
Defined.

(** X28.  [client_destroy] for a known client removes the name and answers
    with success.  If the client is connected, its socket is deregistered
    and closed on the way; if it is not, the world is untouched: the socket
    its constructor opened stays open. *)
Theorem X28_client_destroy_closes_only_connected
    (control : ControlSession.t) (message : Message) (s : FixToolAgent.State)
    (client : Client.t) :
  let name := msg_get message "name" in
  FixToolAgent._clients s.1 !! name = Some client ->
  FixToolAgent.handle_client_destroy control message s
  = ((FixToolAgent.set_clients (delete name) s.1,
      replied control (ClientDestroyedMessage name true "")
        (mkStore (if Client._is_connected client
                  then client_closed (Client._socket client) (world s.2)
                  else world s.2)
                 (session_objs s.2) (next_ref s.2))),
     Ok tt).
Proof.
  intros name Hclient. destruct s as [a h]. cbn in Hclient.
  unfold FixToolAgent.handle_client_destroy. step. fold name. rewrite Hclient.
  unfold FixToolAgent.on_client, Client.destroy. step.
  destruct (Client._is_connected client).
  - rewrite client_disconnect_spec. step. rewrite reply_spec. cbn.
    destruct a. unfold FixToolAgent.set_clients. cbn.
    by rewrite delete_insert_eq.
  - step. rewrite reply_spec. cbn.
    destruct a, h. unfold FixToolAgent.set_clients. cbn.
    by rewrite delete_insert_eq.
Qed.

Lemma X28_client_destroy_closes_only_connected_witness :
  let destroy := request "client_destroy" [("name"%string, VStr "A")] in
  let s' := exec (FixToolAgent.handle_client_destroy control1 destroy) with_client_A in
  FixToolAgent._clients s'.1 !! VStr "A" = None /\
  sockets (world s'.2) !! 2%nat = Some SockOpen.
Proof.
  intros destroy s'. subst s'. unfold exec.
  rewrite (X28_client_destroy_closes_only_connected control1 destroy with_client_A
             (new_client (VStr "A") 2%nat)).
  - split; vm_compute; reflexivity.
  - vm_compute. reflexivity.
Defined.
